(** * SonarWebSocketImpl: connection lifecycle and certificate bootstrap

    A shallow embedding of xplat/Sonar/SonarWebSocketImpl.cpp.

    The object's mutable members are a record; every member function and
    every lambda of the file is a computation in a small monad that threads
    the record, may throw a C++ exception, may dereference a null handle,
    and emits the calls it makes on its collaborators (transport, context
    store, callbacks, step reporter, event base) as a list of effects.

    What lies outside the file is taken as follows.
    - folly's JSON codec is a parameter ([Json]); [SampleJson] is one
      instance, used to run the model on concrete inputs.
    - The answers of the context store and of the transport during one
      pass through [startSync] are an [Env] record.  The context store's
      member functions are taken to return; the connect future's [get()]
      returns a client or throws.
    - [callbacks_], [sonarState_] and [contextStore_] are taken to be set.
    - Work handed to the event base or subscribed on the transport is kept
      in the [World]; which pending lambda runs next, and which lifecycle
      event or reply arrives next, is an [Input] chosen by the
      surroundings.  Delays are recorded in the effect and otherwise left
      to that choice, and a member function or lambda runs to its end
      before the next input is taken. *)

From Stdlib Require Import ZArith List String Ascii Bool Lia.
Import ListNotations.
Local Open Scope string_scope.
Local Open Scope Z_scope.
Local Open Scope list_scope.

(** ** folly::dynamic and the JSON codec *)

#[warnings="-register-all"] Inductive dynamic : Type :=
| DNull
| DBool (b : bool)
| DInt (z : Z)
| DString (s : string)
| DArray (items : list dynamic)
| DObject (members : list (string * dynamic)).

(** [folly::toJson] and [folly::parseJson]; the latter throws on text that
    is not JSON, which is [None] here. *)
Record Json : Type := {
  toJson : dynamic -> string;
  parseJson : string -> option dynamic
}.

(** A codec for the fragment of JSON without white space, escapes and
    fractions. *)
Module SampleJson.

Definition dquote : ascii := ascii_of_nat 34.

Definition quoted (s : string) : string :=
  String dquote (s ++ String dquote EmptyString)%string.

Fixpoint digitsOf (fuel : nat) (n : N) (acc : string) : string :=
  match fuel with
  | O => acc
  | S fuel' =>
      let d := ascii_of_N (48 + N.modulo n 10) in
      match N.div n 10 with
      | N0 => String d acc
      | q => digitsOf fuel' q (String d acc)
      end
  end.

Definition showInt (z : Z) : string :=
  let body := digitsOf (S (N.to_nat (N.log2 (Z.abs_N z)))) (Z.abs_N z) "" in
  if z <? 0 then String "-" body else body.

Fixpoint render (d : dynamic) : string :=
  match d with
  | DNull => "null"
  | DBool true => "true"
  | DBool false => "false"
  | DInt z => showInt z
  | DString s => quoted s
  | DArray items =>
      let fix go (l : list dynamic) : string :=
        match l with
        | [] => ""
        | x :: rest =>
            match rest with
            | [] => render x
            | _ => (render x ++ "," ++ go rest)%string
            end
        end in
      ("[" ++ go items ++ "]")%string
  | DObject members =>
      let fix go (l : list (string * dynamic)) : string :=
        match l with
        | [] => ""
        | (k, v) :: rest =>
            match rest with
            | [] => (quoted k ++ ":" ++ render v)%string
            | _ => (quoted k ++ ":" ++ render v ++ "," ++ go rest)%string
            end
        end in
      ("{" ++ go members ++ "}")%string
  end.

Definition isDigit (c : ascii) : bool :=
  let n := N_of_ascii c in (48 <=? n)%N && (n <=? 57)%N.

Fixpoint readDigits (s : list ascii) (acc : Z) : Z * list ascii :=
  match s with
  | c :: rest =>
      if isDigit c
      then readDigits rest (10 * acc + (Z.of_N (N_of_ascii c) - 48))
      else (acc, s)
  | [] => (acc, s)
  end.

Fixpoint readString (s : list ascii) : option (string * list ascii) :=
  match s with
  | [] => None
  | c :: rest =>
      if Ascii.eqb c dquote then Some (EmptyString, rest)
      else match readString rest with
           | Some (str, rest') => Some (String c str, rest')
           | None => None
           end
  end.

Definition startsWith (p : string) (s : list ascii) : option (list ascii) :=
  let q := list_ascii_of_string p in
  if list_eq_dec ascii_dec (firstn (List.length q) s) q
  then Some (skipn (List.length q) s) else None.

Fixpoint readValue (fuel : nat) (s : list ascii)
  : option (dynamic * list ascii) :=
  match fuel with
  | O => None
  | S fuel' =>
      match s with
      | [] => None
      | c :: rest =>
          if Ascii.eqb c dquote then
            match readString rest with
            | Some (str, rest') => Some (DString str, rest')
            | None => None
            end
          else if Ascii.eqb c "[" then
            match rest with
            | "]"%char :: rest' => Some (DArray [], rest')
            | _ => match readItems fuel' rest with
                   | Some (items, rest') => Some (DArray items, rest')
                   | None => None
                   end
            end
          else if Ascii.eqb c "{" then
            match rest with
            | "}"%char :: rest' => Some (DObject [], rest')
            | _ => match readMembers fuel' rest with
                   | Some (members, rest') => Some (DObject members, rest')
                   | None => None
                   end
            end
          else if Ascii.eqb c "-" then
            match rest with
            | d :: _ =>
                if isDigit d
                then let (n, rest') := readDigits rest 0 in
                     Some (DInt (- n), rest')
                else None
            | [] => None
            end
          else if isDigit c then
            let (n, rest') := readDigits s 0 in Some (DInt n, rest')
          else
            match startsWith "null" s, startsWith "true" s,
                  startsWith "false" s with
            | Some rest', _, _ => Some (DNull, rest')
            | _, Some rest', _ => Some (DBool true, rest')
            | _, _, Some rest' => Some (DBool false, rest')
            | _, _, _ => None
            end
      end
  end
with readItems (fuel : nat) (s : list ascii)
  : option (list dynamic * list ascii) :=
  match fuel with
  | O => None
  | S fuel' =>
      match readValue fuel' s with
      | Some (v, ","%char :: rest) =>
          match readItems fuel' rest with
          | Some (vs, rest') => Some (v :: vs, rest')
          | None => None
          end
      | Some (v, "]"%char :: rest) => Some ([v], rest)
      | _ => None
      end
  end
with readMembers (fuel : nat) (s : list ascii)
  : option (list (string * dynamic) * list ascii) :=
  match fuel with
  | O => None
  | S fuel' =>
      match s with
      | c :: rest =>
          if Ascii.eqb c dquote then
            match readString rest with
            | Some (k, ":"%char :: rest1) =>
                match readValue fuel' rest1 with
                | Some (v, ","%char :: rest2) =>
                    match readMembers fuel' rest2 with
                    | Some (kvs, rest') => Some ((k, v) :: kvs, rest')
                    | None => None
                    end
                | Some (v, "}"%char :: rest2) => Some ([(k, v)], rest2)
                | _ => None
                end
            | _ => None
            end
          else None
      | [] => None
      end
  end.

Definition parse (text : string) : option dynamic :=
  let s := list_ascii_of_string text in
  match readValue (S (List.length s)) s with
  | Some (v, []) => Some v
  | _ => None
  end.

Definition codec : Json := {| toJson := render; parseJson := parse |}.

End SampleJson.


(** ** Constants of the file *)

Definition WRONG_THREAD_EXIT_MSG : string :=
  "ERROR: Aborting sonar initialization because it's not running in the sonar thread.".

Definition reconnectIntervalSeconds : Z := 2.
Definition connectionKeepaliveSeconds : Z := 10.
Definition securePort : Z := 8088.
Definition insecurePort : Z := 8089.

(** ** Exceptions *)

(** The values of [folly::AsyncSocketException::AsyncSocketExceptionType]. *)
Inductive AsyncSocketExceptionType : Type :=
| UNKNOWN | NOT_OPEN | ALREADY_OPEN | TIMED_OUT | END_OF_FILE | INTERRUPTED
| BAD_ARGS | CORRUPTED_DATA | INTERNAL_ERROR | NOT_SUPPORTED | INVALID_STATE
| SSL_ERROR | COULD_NOT_BIND | NETWORK_ERROR.

(** The exceptions the file tells apart; all of them derive from
    [std::exception]. *)
Inductive Exception : Type :=
| AsyncSocketException (type : AsyncSocketExceptionType) (msg : string)
| ErrorWithPayload (payload : string)
| StdException (msg : string).

Definition what (e : Exception) : string :=
  match e with
  | AsyncSocketException _ msg => msg
  | ErrorWithPayload _ => "ErrorWithPayload"
  | StdException msg => msg
  end.

(** ** Data *)

Record DeviceData : Type := {
  host : string;
  os : string;
  device : string;
  app : string
}.

(** The arguments of [createConnectedClient] that the file chooses. *)
Record SetupRequest : Type := {
  addressHost : string;
  addressPort : Z;
  sslContext : bool;
  setupPayload : string;
  responder : bool;
  keepaliveSeconds : Z
}.

(** The client a successful connect returns: the connection the transport
    opened and what it was opened with. *)
Record RSocketClient : Type := {
  connection : nat;
  request : SetupRequest
}.

(** A [SonarStep] handle is known by the name it was started with. *)
Definition SonarStep : Type := string.

(** The lambdas handed to the event base. *)
Inductive Closure : Type :=
| StartClosure (step : SonarStep)
| ReconnectClosure
| SendClosure (message : dynamic)
| CertRequestClosure (message : dynamic) (gettingCert : SonarStep).

(** The lambdas subscribed on a requester call. *)
Inductive Subscriber : Type :=
| EmptySubscriber
| CertResponseSubscriber (message : dynamic) (gettingCert : SonarStep)
| LegacySentSubscriber (sendingRequest : SonarStep).

(** The calls made on the collaborators. *)
Inductive Effect : Type :=
| Log (message : string)
| StepStart (name : SonarStep)
| StepComplete (name : SonarStep)
| StepFail (name : SonarStep) (message : string)
| CallbackOnConnected
| CallbackOnDisconnected
| CallbackOnMessageReceived (message : dynamic)
| CreateConnectedClient (setup : SetupRequest)
| ClientDisconnect (client : RSocketClient)
| RequestResponse (client : RSocketClient) (payload : string)
    (subscriber : Subscriber)
| FireAndForget (client : RSocketClient) (payload : string)
    (subscriber : Subscriber)
| StoreConnectionConfig (config : dynamic)
| FutureDelayed (milliseconds : Z) (closure : Closure)
| EventBaseAdd (closure : Closure).

(** Modelled from the spec: the type of [failedConnectionAttempts_] is
    declared in SonarWebSocketImpl.h, which is not among the sources; the
    spec's FailureCounter is a non-negative integer, taken here without an
    upper bound. *)
Definition FailureCounter : Type := Z.

(** The members of [SonarWebSocketImpl] that the file reads or writes. *)
Record SonarWebSocketImpl : Type := {
  deviceData_ : DeviceData;
  isOpen_ : bool;
  connectionIsTrusted_ : bool;
  failedConnectionAttempts_ : FailureCounter;
  client_ : option RSocketClient
}.

Definition set_isOpen_ (b : bool) (s : SonarWebSocketImpl) :=
  {| deviceData_ := deviceData_ s; isOpen_ := b;
     connectionIsTrusted_ := connectionIsTrusted_ s;
     failedConnectionAttempts_ := failedConnectionAttempts_ s;
     client_ := client_ s |}.

Definition set_connectionIsTrusted_ (b : bool) (s : SonarWebSocketImpl) :=
  {| deviceData_ := deviceData_ s; isOpen_ := isOpen_ s;
     connectionIsTrusted_ := b;
     failedConnectionAttempts_ := failedConnectionAttempts_ s;
     client_ := client_ s |}.

Definition set_failedConnectionAttempts_ (n : FailureCounter)
    (s : SonarWebSocketImpl) :=
  {| deviceData_ := deviceData_ s; isOpen_ := isOpen_ s;
     connectionIsTrusted_ := connectionIsTrusted_ s;
     failedConnectionAttempts_ := n;
     client_ := client_ s |}.

Definition set_client_ (c : option RSocketClient) (s : SonarWebSocketImpl) :=
  {| deviceData_ := deviceData_ s; isOpen_ := isOpen_ s;
     connectionIsTrusted_ := connectionIsTrusted_ s;
     failedConnectionAttempts_ := failedConnectionAttempts_ s;
     client_ := c |}.

(** What the surroundings answer during one pass through [startSync]. *)
Record Env : Type := {
  isInEventBaseThread : bool;
  hasRequiredFiles : bool;
  getDeviceId : string;
  createCertificateSigningRequest : string;
  getCertificateDirectoryPath : string;
  connectFuture_get : nat + Exception
}.

(** ** The monad of member functions *)

Inductive Outcome (A : Type) : Type :=
| Returns (a : A)
| Throws (e : Exception)
| NullDereference.
Arguments Returns {A} a.
Arguments Throws {A} e.
Arguments NullDereference {A}.

Definition M (A : Type) : Type :=
  SonarWebSocketImpl -> Outcome A * SonarWebSocketImpl * list Effect.

Definition ret {A : Type} (a : A) : M A := fun s => (Returns a, s, []).

Definition bind {A B : Type} (m : M A) (k : A -> M B) : M B :=
  fun s =>
    match m s with
    | (Returns a, s1, es1) =>
        match k a s1 with
        | (o, s2, es2) => (o, s2, es1 ++ es2)
        end
    | (Throws e, s1, es1) => (Throws e, s1, es1)
    | (NullDereference, s1, es1) => (NullDereference, s1, es1)
    end.

Definition throw {A : Type} (e : Exception) : M A :=
  fun s => (Throws e, s, []).

Definition tryCatch {A : Type} (body : M A) (handler : Exception -> M A)
  : M A :=
  fun s =>
    match body s with
    | (Throws e, s1, es1) =>
        match handler e s1 with
        | (o, s2, es2) => (o, s2, es1 ++ es2)
        end
    | r => r
    end.

Definition emit (e : Effect) : M unit := fun s => (Returns tt, s, [e]).
Definition gets {A : Type} (f : SonarWebSocketImpl -> A) : M A :=
  fun s => (Returns (f s), s, []).
Definition modify (f : SonarWebSocketImpl -> SonarWebSocketImpl) : M unit :=
  fun s => (Returns tt, f s, []).

(** [p->...] on a handle that may be null. *)
Definition deref {A : Type} (p : option A) : M A :=
  fun s =>
    match p with
    | Some a => (Returns a, s, [])
    | None => (NullDereference, s, [])
    end.

Declare Scope M_scope.
Delimit Scope M_scope with M.
Notation "x <- m ;; k" := (bind m (fun x => k))
  (at level 61, m at next level, right associativity) : M_scope.
Notation "m ;; k" := (bind m (fun _ => k))
  (at level 61, right associativity) : M_scope.
Local Open Scope M_scope.

Definition outcomeOf {A : Type} (r : Outcome A * SonarWebSocketImpl * list Effect)
  : Outcome A := fst (fst r).
Definition stateOf {A : Type} (r : Outcome A * SonarWebSocketImpl * list Effect)
  : SonarWebSocketImpl := snd (fst r).
Definition effectsOf {A : Type} (r : Outcome A * SonarWebSocketImpl * list Effect)
  : list Effect := snd r.

(** ** The member functions and lambdas *)

Section Sonar.

Variable json : Json.

(** [SonarWebSocketImpl::isOpen] *)
Definition isOpen (s : SonarWebSocketImpl) : bool :=
  isOpen_ s && connectionIsTrusted_ s.

(** [SonarWebSocketImpl::reconnect] *)
Definition reconnect : M unit :=
  emit (FutureDelayed (reconnectIntervalSeconds * 1000) ReconnectClosure).

(** [ConnectionEvents::onConnected] *)
Definition ConnectionEvents_onConnected : M unit :=
  modify (set_isOpen_ true) ;;
  trusted <- gets connectionIsTrusted_ ;;
  if trusted then emit CallbackOnConnected else ret tt.

(** [ConnectionEvents::onDisconnected] *)
Definition ConnectionEvents_onDisconnected : M unit :=
  open <- gets isOpen_ ;;
  if negb open then ret tt
  else
    modify (set_isOpen_ false) ;;
    trusted <- gets connectionIsTrusted_ ;;
    (if trusted
     then modify (set_connectionIsTrusted_ false) ;;
          emit CallbackOnDisconnected
     else ret tt) ;;
    reconnect.

(** [ConnectionEvents::onClosed] *)
Definition ConnectionEvents_onClosed : M unit :=
  ConnectionEvents_onDisconnected.

(** [folly::parseJson] as a call that may throw. *)
Definition parseJsonOrThrow (text : string) : M dynamic :=
  match parseJson json text with
  | Some value => ret value
  | None => throw (StdException "json parse error")
  end.

(** [Responder::handleFireAndForget] *)
Definition Responder_handleFireAndForget (payload : string) : M unit :=
  message <- parseJsonOrThrow payload ;;
  emit (CallbackOnMessageReceived message).

(** [SonarWebSocketImpl::start] *)
Definition start : M unit :=
  let step := "Start connection thread" in
  emit (StepStart step) ;;
  emit (FutureDelayed 0 (StartClosure step)).

(** The [createConnectedClient(...).get()] of both connect functions. *)
Definition createConnectedClient (env : Env) (setup : SetupRequest)
  : M RSocketClient :=
  emit (CreateConnectedClient setup) ;;
  match connectFuture_get env with
  | inl c => ret {| connection := c; request := setup |}
  | inr e => throw e
  end.

(** [SonarWebSocketImpl::requestSignedCertFromSonar], up to the hand-over
    of the request lambda to the event base. *)
Definition requestSignedCertFromSonar (env : Env) : M unit :=
  let generatingCSR := "Generate CSR" in
  emit (StepStart generatingCSR) ;;
  let csr := createCertificateSigningRequest env in
  emit (StepComplete generatingCSR) ;;
  let message :=
    DObject [("method", DString "signCertificate");
             ("csr", DString csr);
             ("destination", DString (getCertificateDirectoryPath env))] in
  let gettingCert := "Getting cert from desktop" in
  emit (StepStart gettingCert) ;;
  emit (EventBaseAdd (CertRequestClosure message gettingCert)) ;;
  modify (set_failedConnectionAttempts_ 0).

(** [SonarWebSocketImpl::doCertificateExchange] *)
Definition doCertificateExchange (env : Env) : M unit :=
  d <- gets deviceData_ ;;
  let payload :=
    toJson json (DObject [("os", DString (os d));
                          ("device", DString (device d));
                          ("app", DString (app d))]) in
  let connectingInsecurely := "Connect insecurely" in
  emit (StepStart connectingInsecurely) ;;
  modify (set_connectionIsTrusted_ false) ;;
  c <- createConnectedClient env
         {| addressHost := host d; addressPort := insecurePort;
            sslContext := false; setupPayload := payload;
            responder := false;
            keepaliveSeconds := connectionKeepaliveSeconds |} ;;
  modify (set_client_ (Some c)) ;;
  emit (StepComplete connectingInsecurely) ;;
  requestSignedCertFromSonar env.

(** [SonarWebSocketImpl::connectSecurely] *)
Definition connectSecurely (env : Env) : M unit :=
  let loadingDeviceId := "Load Device Id" in
  emit (StepStart loadingDeviceId) ;;
  let deviceId := getDeviceId env in
  (if String.eqb deviceId "unknown" then ret tt
   else emit (StepComplete loadingDeviceId)) ;;
  d <- gets deviceData_ ;;
  let payload :=
    toJson json (DObject [("os", DString (os d));
                          ("device", DString (device d));
                          ("device_id", DString deviceId);
                          ("app", DString (app d))]) in
  let connectingSecurely := "Connect securely" in
  emit (StepStart connectingSecurely) ;;
  modify (set_connectionIsTrusted_ true) ;;
  c <- createConnectedClient env
         {| addressHost := host d; addressPort := securePort;
            sslContext := true; setupPayload := payload;
            responder := true;
            keepaliveSeconds := connectionKeepaliveSeconds |} ;;
  modify (set_client_ (Some c)) ;;
  emit (StepComplete connectingSecurely) ;;
  modify (set_failedConnectionAttempts_ 0).

(** [SonarWebSocketImpl::isCertificateExchangeNeeded] *)
Definition isCertificateExchangeNeeded (env : Env) : M bool :=
  failed <- gets failedConnectionAttempts_ ;;
  if 2 <=? failed then ret true
  else
    let step := "Check required certificates are present" in
    emit (StepStart step) ;;
    let has := hasRequiredFiles env in
    (if has then emit (StepComplete step) else ret tt) ;;
    ret (negb has).

(** [SonarWebSocketImpl::startSync] *)
Definition startSync (env : Env) : M unit :=
  if negb (isInEventBaseThread env) then emit (Log WRONG_THREAD_EXIT_MSG)
  else
    open <- gets isOpen ;;
    if open then emit (Log "Already connected")
    else
      let connect := "Connect to desktop" in
      emit (StepStart connect) ;;
      tryCatch
        (needed <- isCertificateExchangeNeeded env ;;
         if needed then doCertificateExchange env
         else connectSecurely env ;; emit (StepComplete connect))
        (fun e =>
           match e with
           | AsyncSocketException type msg =>
               match type with
               | NOT_OPEN => emit (StepFail connect "Port not open")
               | _ =>
                   emit (Log msg) ;;
                   modify (fun s => set_failedConnectionAttempts_
                                      (failedConnectionAttempts_ s + 1) s) ;;
                   emit (StepFail connect msg)
               end ;;
               reconnect
           | _ =>
               emit (Log (what e)) ;;
               emit (StepFail connect (what e)) ;;
               modify (fun s => set_failedConnectionAttempts_
                                  (failedConnectionAttempts_ s + 1) s) ;;
               reconnect
           end).

(** [SonarWebSocketImpl::stop] *)
Definition stop : M unit :=
  c <- gets client_ ;;
  match c with
  | Some client => emit (ClientDisconnect client)
  | None => ret tt
  end ;;
  modify (set_client_ None).

(** [SonarWebSocketImpl::sendMessage] *)
Definition sendMessage (message : dynamic) : M unit :=
  emit (EventBaseAdd (SendClosure message)).

(** [SonarWebSocketImpl::sendLegacyCertificateRequest] *)
Definition sendLegacyCertificateRequest (message : dynamic) : M unit :=
  let sendingRequest := "Sending fallback certificate request" in
  emit (StepStart sendingRequest) ;;
  c <- gets client_ ;;
  client <- deref c ;;
  emit (FireAndForget client (toJson json message)
          (LegacySentSubscriber sendingRequest)).

(** The body of a lambda handed to the event base. *)
Definition runClosure (env : Env) (c : Closure) : M unit :=
  match c with
  | StartClosure step => emit (StepComplete step) ;; startSync env
  | ReconnectClosure => startSync env
  | SendClosure message =>
      c <- gets client_ ;;
      match c with
      | Some client =>
          emit (FireAndForget client (toJson json message) EmptySubscriber)
      | None => ret tt
      end
  | CertRequestClosure message gettingCert =>
      c <- gets client_ ;;
      client <- deref c ;;
      emit (RequestResponse client (toJson json message)
              (CertResponseSubscriber message gettingCert))
  end.

(** What the transport tells a subscriber. *)
Inductive Signal : Type :=
| OnSuccess (payload : string)
| OnError (e : Exception)
| OnComplete.

Definition newline : string := String (ascii_of_nat 10) EmptyString.

(** The success lambda of the certificate request. *)
Definition certResponse (gettingCert : SonarStep) (response : string)
  : M unit :=
  (if String.eqb response "" then ret tt
   else config <- parseJsonOrThrow response ;;
        emit (StoreConnectionConfig config)) ;;
  emit (StepComplete gettingCert) ;;
  emit (Log "Certificate exchange complete.") ;;
  modify (set_client_ None).

(** The error lambdas of the certificate request; the text
    [exception_wrapper::what] puts before the message is left out. *)
Definition certError (message : dynamic) (e : Exception) : M unit :=
  match e with
  | ErrorWithPayload errorMessage =>
      if String.eqb errorMessage "not implemented"
      then sendLegacyCertificateRequest message
      else emit (Log (String.append
             "Desktop failed to provide certificates. Error from sonar desktop:"
             (String.append newline errorMessage)))
  | _ => emit (Log (String.append "Error during certificate exchange:" (what e)))
  end.

(** The completion lambda of the legacy certificate request. *)
Definition legacySent (sendingRequest : SonarStep) : M unit :=
  emit (StepComplete sendingRequest) ;;
  modify (set_client_ None).

(** The body of a subscribed lambda; a signal a subscriber has no lambda
    for does nothing. *)
Definition signal (sub : Subscriber) (sig : Signal) : M unit :=
  match sub, sig with
  | CertResponseSubscriber _ gettingCert, OnSuccess response =>
      certResponse gettingCert response
  | CertResponseSubscriber message _, OnError e => certError message e
  | LegacySentSubscriber sendingRequest, OnComplete =>
      legacySent sendingRequest
  | _, _ => ret tt
  end.

End Sonar.

(** ** The object in its surroundings *)

(** The object, the lambdas waiting on [sonarEventBase_], the lambdas
    subscribed on the transport, every effect so far, and whether a null
    handle was dereferenced. *)
Record World : Type := {
  obj : SonarWebSocketImpl;
  pending : list Closure;
  subscribed : list Subscriber;
  history : list Effect;
  crashed : bool
}.

(** What can happen next: a call of a public member function, the event
    base running its [n]-th waiting lambda, a lifecycle event or an inbound
    message from the transport, or the transport signalling the [n]-th
    subscribed lambda. *)
Inductive Input : Type :=
| Call_start
| Call_stop
| Call_sendMessage (message : dynamic)
| Run (n : nat) (env : Env)
| Transport_onConnected
| Transport_onDisconnected
| Transport_onClosed
| Transport_fireAndForget (payload : string)
| Transport_signal (n : nat) (sig : Signal).

Fixpoint removeNth {A : Type} (n : nat) (l : list A) : list A :=
  match n, l with
  | _, [] => []
  | O, _ :: rest => rest
  | S n', x :: rest => x :: removeNth n' rest
  end.

Fixpoint scheduled (es : list Effect) : list Closure :=
  match es with
  | [] => []
  | FutureDelayed _ c :: rest => c :: scheduled rest
  | EventBaseAdd c :: rest => c :: scheduled rest
  | _ :: rest => scheduled rest
  end.

Fixpoint subscriptions (es : list Effect) : list Subscriber :=
  match es with
  | [] => []
  | RequestResponse _ _ sub :: rest => sub :: subscriptions rest
  | FireAndForget _ _ sub :: rest => sub :: subscriptions rest
  | _ :: rest => subscriptions rest
  end.

(** Run a member function or lambda on the object and take up what it
    scheduled and subscribed. *)
Definition perform (m : M unit) (w : World) : World :=
  match m (obj w) with
  | (o, s, es) =>
      {| obj := s;
         pending := pending w ++ scheduled es;
         subscribed := subscribed w ++ subscriptions es;
         history := history w ++ es;
         crashed := match o with
                    | NullDereference => true
                    | _ => crashed w
                    end |}
  end.

Definition takePending (n : nat) (w : World) : World :=
  {| obj := obj w; pending := removeNth n (pending w);
     subscribed := subscribed w; history := history w;
     crashed := crashed w |}.

Definition takeSubscribed (n : nat) (w : World) : World :=
  {| obj := obj w; pending := pending w;
     subscribed := removeNth n (subscribed w); history := history w;
     crashed := crashed w |}.

Section Run.

Variable json : Json.

Definition step (i : Input) (w : World) : World :=
  if crashed w then w
  else
    match i with
    | Call_start => perform start w
    | Call_stop => perform stop w
    | Call_sendMessage message => perform (sendMessage message) w
    | Run n env =>
        match nth_error (pending w) n with
        | Some c => perform (runClosure json env c) (takePending n w)
        | None => w
        end
    | Transport_onConnected => perform ConnectionEvents_onConnected w
    | Transport_onDisconnected => perform ConnectionEvents_onDisconnected w
    | Transport_onClosed => perform ConnectionEvents_onClosed w
    | Transport_fireAndForget payload =>
        perform (Responder_handleFireAndForget json payload) w
    | Transport_signal n sig =>
        match nth_error (subscribed w) n with
        | Some sub => perform (signal json sub sig) (takeSubscribed n w)
        | None => w
        end
    end.

Fixpoint run (inputs : list Input) (w : World) : World :=
  match inputs with
  | [] => w
  | i :: rest => run rest (step i w)
  end.

End Run.

(** The member functions and lambdas that [step] runs. *)
Inductive Handler (json : Json) : M unit -> Prop :=
| Handler_start : Handler json start
| Handler_stop : Handler json stop
| Handler_sendMessage message : Handler json (sendMessage message)
| Handler_runClosure env c : Handler json (runClosure json env c)
| Handler_onConnected : Handler json ConnectionEvents_onConnected
| Handler_onDisconnected : Handler json ConnectionEvents_onDisconnected
| Handler_onClosed : Handler json ConnectionEvents_onClosed
| Handler_fireAndForget payload :
    Handler json (Responder_handleFireAndForget json payload)
| Handler_signal sub sig : Handler json (signal json sub sig).

(** Modelled from the spec: the member initialisers are in the class
    declaration, which is not among the sources; the spec has the
    controller start Disconnected, untrusted, with FailureCounter 0 and no
    channel handle. *)
Definition constructed (d : DeviceData) : World :=
  {| obj := {| deviceData_ := d; isOpen_ := false;
               connectionIsTrusted_ := false;
               failedConnectionAttempts_ := 0; client_ := None |};
     pending := []; subscribed := []; history := []; crashed := false |}.

(** ** Reading an effect list *)

Definition connectsTo (p : Z) (es : list Effect) : bool :=
  existsb (fun e => match e with
                    | CreateConnectedClient setup => addressPort setup =? p
                    | _ => false
                    end) es.

Fixpoint callbacks (es : list Effect) : list Effect :=
  match es with
  | [] => []
  | CallbackOnConnected :: rest => CallbackOnConnected :: callbacks rest
  | CallbackOnDisconnected :: rest => CallbackOnDisconnected :: callbacks rest
  | CallbackOnMessageReceived m :: rest =>
      CallbackOnMessageReceived m :: callbacks rest
  | _ :: rest => callbacks rest
  end.

(** The payloads handed to the transport, with the client they went to. *)
Fixpoint sent (es : list Effect) : list (RSocketClient * string) :=
  match es with
  | [] => []
  | RequestResponse c p _ :: rest => (c, p) :: sent rest
  | FireAndForget c p _ :: rest => (c, p) :: sent rest
  | _ :: rest => sent rest
  end.

Fixpoint stored (es : list Effect) : list dynamic :=
  match es with
  | [] => []
  | StoreConnectionConfig config :: rest => config :: stored rest
  | _ :: rest => stored rest
  end.

Fixpoint secureConnects (es : list Effect) : nat :=
  match es with
  | [] => O
  | CreateConnectedClient setup :: rest =>
      if addressPort setup =? securePort
      then S (secureConnects rest) else secureConnects rest
  | _ :: rest => secureConnects rest
  end.

(** The transport events that report the loss of the connection. *)
Definition isLoss (i : Input) : bool :=
  match i with
  | Transport_onDisconnected | Transport_onClosed => true
  | _ => false
  end.

(** ** Sample surroundings *)

Definition sampleDevice : DeviceData :=
  {| host := "localhost"; os := "Android"; device := "Pixel"; app := "Demo" |}.

(** Certificates on disk, desktop listening. *)
Definition envListening : Env :=
  {| isInEventBaseThread := true; hasRequiredFiles := true;
     getDeviceId := "device-1"; createCertificateSigningRequest := "CSR";
     getCertificateDirectoryPath := "/certs";
     connectFuture_get := inl 1%nat |}.

(** Certificates on disk, desktop not running. *)
Definition envNotListening : Env :=
  {| isInEventBaseThread := true; hasRequiredFiles := true;
     getDeviceId := "device-1"; createCertificateSigningRequest := "CSR";
     getCertificateDirectoryPath := "/certs";
     connectFuture_get := inr (AsyncSocketException NOT_OPEN "connect failed") |}.

(** No certificates on disk, desktop listening on the insecure port. *)
Definition envNoCertificates : Env :=
  {| isInEventBaseThread := true; hasRequiredFiles := false;
     getDeviceId := "unknown"; createCertificateSigningRequest := "CSR";
     getCertificateDirectoryPath := "/certs";
     connectFuture_get := inl 7%nat |}.

(** No certificates on disk, the connect to the insecure port times out. *)
Definition envBootstrapTimeout : Env :=
  {| isInEventBaseThread := true; hasRequiredFiles := false;
     getDeviceId := "unknown"; createCertificateSigningRequest := "CSR";
     getCertificateDirectoryPath := "/certs";
     connectFuture_get := inr (AsyncSocketException TIMED_OUT "timed out") |}.

Definition sampleObject : SonarWebSocketImpl := obj (constructed sampleDevice).

Definition sampleMessage : dynamic := DObject [("method", DString "ping")].

Definition sampleConfig : dynamic := DObject [("foo", DString "bar")].

(** The request [requestSignedCertFromSonar] builds under
    [envNoCertificates]. *)
Definition sampleCertMessage : dynamic :=
  DObject [("method", DString "signCertificate");
           ("csr", DString "CSR");
           ("destination", DString "/certs")].

(** [start()], then the start lambda takes the bootstrap path and
    connects. *)
Definition bootstrapWorld : World :=
  run SampleJson.codec [Call_start; Run 0 envNoCertificates]
    (constructed sampleDevice).

(** ..., then the transport reports the connection and the request lambda
    sends the certificate request. *)
Definition exchangingWorld : World :=
  run SampleJson.codec [Transport_onConnected; Run 0 envNoCertificates]
    bootstrapWorld.

(** [start()], then the start lambda finds the desktop not running and
    schedules a reconnect. *)
Definition retryingWorld : World :=
  run SampleJson.codec [Call_start; Run 0 envNotListening]
    (constructed sampleDevice).

(** [start()], then the start lambda connects securely and the transport
    reports the connection. *)
Definition connectedWorld : World :=
  run SampleJson.codec [Call_start; Run 0 envListening; Transport_onConnected]
    (constructed sampleDevice).

(** ** Further readings of a state, an environment and an effect list *)

(** The connect throws something other than an [AsyncSocketException] of
    type [NOT_OPEN]: the failures [startSync] counts. *)
Definition countedFailure (env : Env) : bool :=
  match connectFuture_get env with
  | inl _ => false
  | inr (AsyncSocketException NOT_OPEN _) => false
  | inr _ => true
  end.

(** The two ways the file calls [createConnectedClient]. *)
Definition bootstrapSetup (r : SetupRequest) : bool :=
  (addressPort r =? insecurePort) && negb (sslContext r) && negb (responder r).

Definition secureSetup (r : SetupRequest) : bool :=
  (addressPort r =? securePort) && sslContext r && responder r.

Definition knownSetup (r : SetupRequest) : bool :=
  (bootstrapSetup r || secureSetup r)
  && (keepaliveSeconds r =? connectionKeepaliveSeconds).

(** The client handle, when one is installed, is of one of the two kinds
    and goes to the host of the device data. *)
Definition handleKnown (s : SonarWebSocketImpl) : Prop :=
  forall c, client_ s = Some c ->
    knownSetup (request c) = true /\
    addressHost (request c) = host (deviceData_ s).

Fixpoint connectRequests (es : list Effect) : list SetupRequest :=
  match es with
  | [] => []
  | CreateConnectedClient setup :: rest => setup :: connectRequests rest
  | _ :: rest => connectRequests rest
  end.

(** The connected and disconnected notifications among the effects. *)
Fixpoint notifications (es : list Effect) : list Effect :=
  match es with
  | [] => []
  | CallbackOnConnected :: rest => CallbackOnConnected :: notifications rest
  | CallbackOnDisconnected :: rest =>
      CallbackOnDisconnected :: notifications rest
  | _ :: rest => notifications rest
  end.

(** The effects that hand a lambda to the event base, at once or after a
    delay. *)
Definition isScheduling (e : Effect) : bool :=
  match e with
  | FutureDelayed _ _ | EventBaseAdd _ => true
  | _ => false
  end.

(** The effects a step adds to the history. *)
Definition added (before after : World) : list Effect :=
  skipn (List.length (history before)) (history after).

(** An object with nothing waiting on the event base or the transport. *)
Definition idle (s : SonarWebSocketImpl) : World :=
  {| obj := s; pending := []; subscribed := []; history := [];
     crashed := false |}.

(** The request [requestSignedCertFromSonar] builds. *)
Definition signCertificateMessage (env : Env) : dynamic :=
  DObject [("method", DString "signCertificate");
           ("csr", DString (createCertificateSigningRequest env));
           ("destination", DString (getCertificateDirectoryPath env))].

(** Certificates on disk, the TLS handshake with the desktop fails. *)
Definition envHandshakeFailure : Env :=
  {| isInEventBaseThread := true; hasRequiredFiles := true;
     getDeviceId := "device-1"; createCertificateSigningRequest := "CSR";
     getCertificateDirectoryPath := "/certs";
     connectFuture_get := inr (AsyncSocketException SSL_ERROR "handshake failed") |}.

(** A lambda that finds itself outside the event base thread. *)
Definition envWrongThread : Env :=
  {| isInEventBaseThread := false; hasRequiredFiles := true;
     getDeviceId := "device-1"; createCertificateSigningRequest := "CSR";
     getCertificateDirectoryPath := "/certs";
     connectFuture_get := inl 1%nat |}.

(** Certificates on disk and a counter that forces the bootstrap path; the
    desktop is listening on the insecure port. *)
Definition envForcedBootstrap : Env :=
  {| isInEventBaseThread := true; hasRequiredFiles := true;
     getDeviceId := "device-1"; createCertificateSigningRequest := "CSR";
     getCertificateDirectoryPath := "/certs";
     connectFuture_get := inl 7%nat |}.

(** Certificates on disk throughout.  [start()]; the handshake fails twice;
    the third pass is forced onto the bootstrap path and connects; the
    transport reports the bootstrap connection. *)
Definition forcedBootstrapWorld : World :=
  run SampleJson.codec
    [Call_start; Run 0 envHandshakeFailure; Run 0 envHandshakeFailure;
     Run 0 envForcedBootstrap; Transport_onConnected]
    (constructed sampleDevice).

(** ..., then the application calls [start()] once more and the pass it
    starts fails its handshake too. *)
Definition staleTrustWorld : World :=
  run SampleJson.codec [Call_start; Run 1 envHandshakeFailure]
    forcedBootstrapWorld.

(** ** Proof tools *)

Ltac unfoldM :=
  repeat progress
    (unfold startSync, isCertificateExchangeNeeded, doCertificateExchange,
       connectSecurely, requestSignedCertFromSonar, createConnectedClient,
       reconnect, stop, start, sendMessage, sendLegacyCertificateRequest,
       runClosure, signal, certResponse, certError, legacySent,
       parseJsonOrThrow, Responder_handleFireAndForget,
       ConnectionEvents_onClosed, ConnectionEvents_onDisconnected,
       ConnectionEvents_onConnected,
       tryCatch, bind, gets, emit, modify, ret, throw, deref,
       effectsOf, stateOf, outcomeOf, isOpen in *).

Ltac crunch :=
  repeat (unfoldM; cbn -[Z.leb Z.add String.eqb] in *;
          match goal with
          | |- context [match parseJson ?j ?p with _ => _ end] =>
              destruct (parseJson j p) eqn:?
          | |- context [if ?b then _ else _] =>
              first [is_var b; destruct b | destruct b eqn:?]
          | |- context [match ?x with _ => _ end] => is_var x; destruct x
          end);
  unfoldM; cbn -[Z.leb Z.add String.eqb] in *.

Lemma perform_obj (m : M unit) (w : World) :
  obj (perform m w) = stateOf (m (obj w)).
Proof. unfold perform, stateOf. destruct (m (obj w)) as [[o s] es]. reflexivity. Qed.

Lemma perform_history (m : M unit) (w : World) :
  history (perform m w) = history w ++ effectsOf (m (obj w)).
Proof. unfold perform, effectsOf. destruct (m (obj w)) as [[o s] es]. reflexivity. Qed.

Lemma added_app (w w' : World) (es : list Effect) :
  history w' = history w ++ es -> added w w' = es.
Proof.
  intro H. unfold added. rewrite H. clear H.
  induction (history w) as [| e l IH]; [reflexivity | exact IH].
Qed.

(** ** Decision between the bootstrap and the secure path *)

Section Decision.

Variable json : Json.

(** C1. A pass through [startSync] that gets past its two guards connects
    to the insecure port, the bootstrap path, exactly when the failure
    counter is at least 2 or the context store reports the required files
    absent, and connects to the secure port exactly when neither holds; with
    the counter at 2 or more the bootstrap path is taken whatever
    [hasRequiredFiles] would answer.  The choice is the answer of
    [isCertificateExchangeNeeded]. *)
Theorem startSync_bootstrap_iff_needed (env : Env) (s : SonarWebSocketImpl) :
  isInEventBaseThread env = true ->
  isOpen s = false ->
  (connectsTo insecurePort (effectsOf (startSync json env s)) = true <->
     2 <= failedConnectionAttempts_ s \/ hasRequiredFiles env = false) /\
  (connectsTo securePort (effectsOf (startSync json env s)) = true <->
     ~ (2 <= failedConnectionAttempts_ s \/ hasRequiredFiles env = false)) /\
  (2 <= failedConnectionAttempts_ s ->
     connectsTo insecurePort (effectsOf (startSync json env s)) = true /\
     connectsTo securePort (effectsOf (startSync json env s)) = false) /\
  outcomeOf (isCertificateExchangeNeeded env s) =
    Returns ((2 <=? failedConnectionAttempts_ s) || negb (hasRequiredFiles env)).
Proof.
  intros Hthread Hopen.
  destruct env as [inThread has devId csr dir conn];
  destruct s as [d open trusted failed client].
  unfoldM. cbn in Hthread, Hopen. subst inThread.
  cbn -[Z.leb Z.add String.eqb].
  rewrite Hopen.
  crunch.
  all: try match goal with H : (_ <=? _) = true |- _ => apply Z.leb_le in H end.
  all: try match goal with H : (_ <=? _) = false |- _ => apply Z.leb_gt in H end.
  all: (repeat split); intros; try tauto; try lia; try discriminate;
    try (intuition (congruence || lia)).
Qed.

End Decision.

(** ** The failure counter *)

Section FailureCounter.

Variable json : Json.

(** C3, as the code has it.  A pass through [startSync] that gets past its
    guards leaves the counter at 0 when the connect succeeds, on the secure
    path and on the bootstrap path alike; leaves it unchanged when the
    connect throws an [AsyncSocketException] of type [NOT_OPEN]; and adds
    exactly 1 when the connect throws anything else, again on either
    path.  Nothing but a lambda on the event base touches the counter:
    calls, transport events and replies leave it as it is. *)
Theorem startSync_failedConnectionAttempts
    (env : Env) (s : SonarWebSocketImpl) (w : World) (i : Input) :
  isInEventBaseThread env = true ->
  isOpen s = false ->
  (forall n env', i <> Run n env') ->
  failedConnectionAttempts_ (stateOf (startSync json env s)) =
    match connectFuture_get env with
    | inl _ => 0
    | inr (AsyncSocketException NOT_OPEN _) => failedConnectionAttempts_ s
    | inr _ => failedConnectionAttempts_ s + 1
    end /\
  failedConnectionAttempts_ (obj (step json i w)) =
    failedConnectionAttempts_ (obj w).
Proof.
  intros Hthread Hopen Hi. split.
  - destruct env as [inThread has devId csr dir conn];
    destruct s as [d open trusted failed client].
    unfoldM. cbn in Hthread, Hopen. subst inThread.
    cbn -[Z.leb Z.add String.eqb].
    rewrite Hopen.
    crunch; reflexivity.
  - unfold step. destruct (crashed w); [reflexivity |].
    destruct i; try (exfalso; eapply Hi; reflexivity);
      try destruct (nth_error (subscribed w) n) as [[] |];
      try destruct sig;
      try reflexivity;
      rewrite perform_obj; cbn [obj takeSubscribed];
      destruct (obj w) as [d open trusted failed client];
      crunch; reflexivity.
Qed.

End FailureCounter.

(** C1 at work: certificates on disk and a fresh counter, so the pass
    connects to the secure port. *)
Lemma startSync_bootstrap_iff_needed_witness :
  isInEventBaseThread envListening = true /\
  isOpen sampleObject = false /\
  connectsTo securePort
    (effectsOf (startSync SampleJson.codec envListening sampleObject)) = true /\
  connectsTo insecurePort
    (effectsOf (startSync SampleJson.codec envNoCertificates sampleObject)) = true.
Proof.
  split; [reflexivity |]. split; [reflexivity |]. split.
  - destruct (startSync_bootstrap_iff_needed SampleJson.codec envListening
                sampleObject eq_refl eq_refl) as (_ & Hsecure & _).
    apply Hsecure. intros [H | H]; [apply H; reflexivity | discriminate H].
  - destruct (startSync_bootstrap_iff_needed SampleJson.codec
                envNoCertificates sampleObject eq_refl eq_refl)
      as (Hbootstrap & _).
    apply Hbootstrap. right. reflexivity.
Defined.

(** C3 as the specification states it fails: with no certificates on disk the pass
    takes the bootstrap path, the connect to the insecure port times out,
    and the counter goes from 0 to 1. *)
Lemma bootstrap_failure_increments_counter :
  let s := sampleObject in
  let r := startSync SampleJson.codec envBootstrapTimeout s in
  connectsTo insecurePort (effectsOf r) = true /\
  connectsTo securePort (effectsOf r) = false /\
  failedConnectionAttempts_ s = 0 /\
  failedConnectionAttempts_ (stateOf r) = 1.
Proof. vm_compute. repeat split; reflexivity. Qed.

(** The amended C3 on the same pass. *)
Lemma startSync_failedConnectionAttempts_witness :
  isInEventBaseThread envBootstrapTimeout = true /\
  isOpen sampleObject = false /\
  failedConnectionAttempts_
    (stateOf (startSync SampleJson.codec envBootstrapTimeout sampleObject)) =
  failedConnectionAttempts_ sampleObject + 1.
Proof.
  split; [reflexivity |]. split; [reflexivity |].
  apply (startSync_failedConnectionAttempts SampleJson.codec
           envBootstrapTimeout sampleObject retryingWorld Call_stop);
    try reflexivity.
  intros n env'. discriminate.
Defined.

(** ** [isOpen] and the trust flag *)

Section Trust.

Variable json : Json.

Lemma step_cases (i : Input) (w : World) :
  step json i w = w \/
  exists m w0, Handler json m /\ obj w0 = obj w /\ history w0 = history w /\
               step json i w = perform m w0.
Proof.
  unfold step. destruct (crashed w); [now left |].
  destruct i; try (right; eexists; exists w; repeat split; constructor).
  - destruct (nth_error (pending w) n) as [c |]; [right | now left].
    exists (runClosure json env c), (takePending n w).
    repeat split. constructor.
  - destruct (nth_error (subscribed w) n) as [sub |]; [right | now left].
    exists (signal json sub sig), (takeSubscribed n w).
    repeat split. constructor.
Qed.

Lemma secureConnects_app (es1 es2 : list Effect) :
  secureConnects (es1 ++ es2) = (secureConnects es1 + secureConnects es2)%nat.
Proof.
  induction es1 as [| e es1 IH]; [reflexivity |].
  destruct e; simpl; try assumption.
  destruct (addressPort setup =? securePort); simpl; rewrite IH; reflexivity.
Qed.

(** Only [connectSecurely] sets the trust flag, and it does so on its way
    to a connect to the secure port. *)
Lemma Handler_keeps_untrusted (m : M unit) (s : SonarWebSocketImpl) :
  Handler json m ->
  connectionIsTrusted_ s = false ->
  secureConnects (effectsOf (m s)) = O ->
  connectionIsTrusted_ (stateOf (m s)) = false.
Proof.
  intros Hm Htrust.
  destruct s as [d open trusted failed client]. cbn in Htrust. subst trusted.
  destruct Hm as [ | | message | env c | | | | payload | sub sig];
    try destruct env as [inThread has devId csr dir conn];
    try destruct c; try destruct sub; try destruct sig;
    crunch; intros; try reflexivity; try discriminate.
Qed.

Lemma step_keeps_untrusted (i : Input) (w : World) :
  connectionIsTrusted_ (obj w) = false ->
  secureConnects (history (step json i w)) = secureConnects (history w) ->
  connectionIsTrusted_ (obj (step json i w)) = false.
Proof.
  intros Htrust Hcount.
  destruct (step_cases i w) as [Heq | (m & w0 & Hm & Hobj & Hhist & Heq)];
    rewrite Heq in *; [assumption |].
  rewrite perform_obj. rewrite perform_history, secureConnects_app in Hcount.
  rewrite Hobj, Hhist in *.
  apply Handler_keeps_untrusted; [assumption | assumption | lia].
Qed.

Lemma step_secureConnects_mono (i : Input) (w : World) :
  (secureConnects (history w) <= secureConnects (history (step json i w)))%nat.
Proof.
  destruct (step_cases i w) as [Heq | (m & w0 & Hm & Hobj & Hhist & Heq)];
    rewrite Heq; [lia |].
  rewrite perform_history, secureConnects_app, Hhist. lia.
Qed.

Lemma run_secureConnects_mono (inputs : list Input) (w : World) :
  (secureConnects (history w) <= secureConnects (history (run json inputs w)))%nat.
Proof.
  revert w. induction inputs as [| i rest IH]; intro w; cbn [run]; [lia |].
  specialize (IH (step json i w)).
  pose proof (step_secureConnects_mono i w). lia.
Qed.

Lemma run_keeps_untrusted (inputs : list Input) (w : World) :
  connectionIsTrusted_ (obj w) = false ->
  secureConnects (history (run json inputs w)) = secureConnects (history w) ->
  connectionIsTrusted_ (obj (run json inputs w)) = false.
Proof.
  revert w. induction inputs as [| i rest IH]; intros w Htrust Hcount;
    cbn [run] in *; [assumption |].
  pose proof (step_secureConnects_mono i w) as Hstep.
  pose proof (run_secureConnects_mono rest (step json i w)) as Hrest.
  apply IH; [apply step_keeps_untrusted; [assumption | lia] | lia].
Qed.

Lemma doCertificateExchange_untrusted (env : Env) (s : SonarWebSocketImpl) :
  connectionIsTrusted_ (stateOf (doCertificateExchange json env s)) = false.
Proof.
  destruct env as [inThread has devId csr dir conn];
  destruct s as [d open trusted failed client].
  crunch; reflexivity.
Qed.

(** What holds of [isOpen] while no secure connect is attempted.  In every
    state [isOpen] answers true exactly when the open flag and
    the trust flag are both true.  [doCertificateExchange] leaves the trust
    flag false whether or not its connect succeeds, and from there no
    sequence of calls, event-base work, transport events and replies makes
    [isOpen] answer true unless it goes through a connect to the secure
    port. *)
Theorem isOpen_iff_open_and_trusted
    (env : Env) (s : SonarWebSocketImpl) (w : World) (more : list Input) :
  obj w = stateOf (doCertificateExchange json env s) ->
  secureConnects (history (run json more w)) = secureConnects (history w) ->
  (forall s' : SonarWebSocketImpl,
     isOpen s' = true <-> isOpen_ s' = true /\ connectionIsTrusted_ s' = true) /\
  connectionIsTrusted_ (obj w) = false /\
  isOpen (obj w) = false /\
  isOpen (obj (step json Transport_onConnected w)) = false /\
  isOpen (obj (run json more w)) = false.
Proof.
  intros Hobj Hcount.
  assert (Htrust : connectionIsTrusted_ (obj w) = false)
    by (rewrite Hobj; apply doCertificateExchange_untrusted).
  assert (Hclosed : forall s', connectionIsTrusted_ s' = false -> isOpen s' = false)
    by (intros s' H; unfold isOpen; rewrite H; apply andb_false_r).
  split; [intro s'; unfold isOpen; apply andb_true_iff |].
  split; [assumption |].
  split; [apply Hclosed; assumption |].
  split.
  - apply Hclosed. apply step_keeps_untrusted; [assumption |].
    unfold step. destruct (crashed w); [reflexivity |].
    rewrite perform_history, secureConnects_app.
    destruct (obj w) as [d open trusted failed client].
    cbn in Htrust. subst trusted. cbn. lia.
  - apply Hclosed. apply run_keeps_untrusted; assumption.
Qed.

End Trust.

(** The same on a run: the bootstrap channel connects, the certificate request
    goes out, the application sends a message and the channel is lost; no
    connect to the secure port took place and [isOpen] answers false. *)
Lemma isOpen_iff_open_and_trusted_witness :
  obj bootstrapWorld =
    stateOf (doCertificateExchange SampleJson.codec envNoCertificates
               sampleObject) /\
  isOpen_ (obj (step SampleJson.codec Transport_onConnected bootstrapWorld)) = true /\
  isOpen (obj (step SampleJson.codec Transport_onConnected bootstrapWorld)) = false /\
  isOpen
    (obj (run SampleJson.codec
            [Transport_onConnected; Run 0 envNoCertificates;
             Call_sendMessage sampleMessage; Run 0 envNoCertificates;
             Transport_onClosed]
            bootstrapWorld)) = false.
Proof.
  split; [reflexivity |]. split; [reflexivity |].
  pose proof (isOpen_iff_open_and_trusted SampleJson.codec envNoCertificates
                sampleObject bootstrapWorld
                [Transport_onConnected; Run 0 envNoCertificates;
                 Call_sendMessage sampleMessage; Run 0 envNoCertificates;
                 Transport_onClosed]
                eq_refl eq_refl) as (_ & _ & _ & Hconnected & Hrun).
  split; assumption.
Defined.

(** ** Transport lifecycle events *)

Section Lifecycle.

Variable json : Json.

Lemma perform_nothing (m : M unit) (w : World) :
  m (obj w) = (Returns tt, obj w, []) -> perform m w = w.
Proof.
  intro H. unfold perform. rewrite H. destruct w; cbn.
  rewrite !app_nil_r. reflexivity.
Qed.

Lemma onDisconnected_closed (s : SonarWebSocketImpl) :
  isOpen_ s = false -> ConnectionEvents_onDisconnected s = (Returns tt, s, []).
Proof.
  intro H. destruct s as [d open trusted failed client]. cbn in H. subst open.
  reflexivity.
Qed.

Lemma loss_when_closed (i : Input) (w : World) :
  isLoss i = true -> isOpen_ (obj w) = false -> step json i w = w.
Proof.
  intros Hi Hclosed. unfold step. destruct (crashed w); [reflexivity |].
  destruct i; try discriminate Hi;
    apply perform_nothing, onDisconnected_closed, Hclosed.
Qed.

Lemma losses_when_closed (events : list Input) (w : World) :
  forallb isLoss events = true -> isOpen_ (obj w) = false ->
  run json events w = w.
Proof.
  induction events as [| i rest IH]; intros Hall Hclosed; [reflexivity |].
  cbn in Hall. apply andb_true_iff in Hall as [Hi Hrest].
  cbn [run]. rewrite loss_when_closed by assumption. auto.
Qed.

Lemma loss_when_open (i : Input) (w : World) :
  isLoss i = true -> crashed w = false -> isOpen_ (obj w) = true ->
  isOpen_ (obj (step json i w)) = false /\
  history (step json i w) =
    history w ++
    (if connectionIsTrusted_ (obj w) then [CallbackOnDisconnected] else []) ++
    [FutureDelayed (reconnectIntervalSeconds * 1000) ReconnectClosure].
Proof.
  intros Hi Hcrashed Hopen. unfold step. rewrite Hcrashed.
  destruct i; try discriminate Hi;
    rewrite perform_obj, perform_history;
    destruct (obj w) as [d open trusted failed client];
    cbn in Hopen; subst open; destruct trusted; split; reflexivity.
Qed.

(** However many Disconnected and Closed events follow one another, the
    application hears of at most one disconnect, and of none when the trust
    flag is false. *)
Lemma losses_notify_once (events : list Input) (w : World) :
  forallb isLoss events = true ->
  exists es, history (run json events w) = history w ++ es /\
             (List.length (callbacks es) <= 1)%nat /\
             (connectionIsTrusted_ (obj w) = false -> callbacks es = []).
Proof.
  revert w. induction events as [| i rest IH]; intros w Hall.
  - exists []. cbn. rewrite app_nil_r. repeat split; auto.
  - cbn in Hall. apply andb_true_iff in Hall as [Hi Hrest]. cbn [run].
    destruct (crashed w) eqn:Hcrashed.
    + unfold step at 1. rewrite Hcrashed. apply IH, Hrest.
    + destruct (isOpen_ (obj w)) eqn:Hopen.
      * destruct (loss_when_open i w Hi Hcrashed Hopen) as [Hclosed Hhist].
        rewrite losses_when_closed by assumption.
        eexists. split; [exact Hhist |].
        destruct (connectionIsTrusted_ (obj w)); cbn; split;
          auto; discriminate.
      * rewrite loss_when_closed by assumption. apply IH, Hrest.
Qed.

(** The lifecycle handlers one by one, and what follows from them while
    the trust flag is false.  The Connected event sets the open flag and
    notifies [onConnected]
    exactly when the trust flag is true.  A Disconnected event on a channel
    recorded closed changes nothing and calls nothing; on a channel
    recorded open it clears the open flag, leaves the trust flag false,
    notifies [onDisconnected] exactly when the trust flag was true, and
    schedules one reconnect.  Closed is Disconnected.  So a sequence of
    Disconnected and Closed events notifies at most once, and not at all
    while the trust flag is false, as it is on the bootstrap channel. *)
Theorem ConnectionEvents_callback_discipline
    (s : SonarWebSocketImpl) (w : World) (events : list Input) :
  forallb isLoss events = true ->
  (isOpen_ (stateOf (ConnectionEvents_onConnected s)) = true /\
   connectionIsTrusted_ (stateOf (ConnectionEvents_onConnected s)) =
     connectionIsTrusted_ s /\
   effectsOf (ConnectionEvents_onConnected s) =
     if connectionIsTrusted_ s then [CallbackOnConnected] else []) /\
  (isOpen_ s = false ->
     ConnectionEvents_onDisconnected s = (Returns tt, s, [])) /\
  (isOpen_ s = true ->
     isOpen_ (stateOf (ConnectionEvents_onDisconnected s)) = false /\
     connectionIsTrusted_ (stateOf (ConnectionEvents_onDisconnected s)) = false /\
     effectsOf (ConnectionEvents_onDisconnected s) =
       (if connectionIsTrusted_ s then [CallbackOnDisconnected] else []) ++
       [FutureDelayed (reconnectIntervalSeconds * 1000) ReconnectClosure]) /\
  ConnectionEvents_onClosed = ConnectionEvents_onDisconnected /\
  (exists es, history (run json events w) = history w ++ es /\
              (List.length (callbacks es) <= 1)%nat /\
              (connectionIsTrusted_ (obj w) = false -> callbacks es = [])).
Proof.
  intro Hall.
  split; [| split; [| split; [| split]]].
  - destruct s as [d open trusted failed client]. destruct trusted;
      repeat split; reflexivity.
  - apply onDisconnected_closed.
  - intro Hopen. destruct s as [d open trusted failed client].
    cbn in Hopen. subst open. destruct trusted; repeat split; reflexivity.
  - reflexivity.
  - apply losses_notify_once, Hall.
Qed.

End Lifecycle.

(** The same on a run: the secure connection is lost and the transport reports
    it three times over; the application hears of it once. *)
Lemma ConnectionEvents_callback_discipline_witness :
  forallb isLoss [Transport_onDisconnected; Transport_onClosed;
                  Transport_onDisconnected] = true /\
  exists es,
    history (run SampleJson.codec
               [Transport_onDisconnected; Transport_onClosed;
                Transport_onDisconnected] connectedWorld)
      = history connectedWorld ++ es /\
    (List.length (callbacks es) <= 1)%nat.
Proof.
  split; [reflexivity |].
  destruct (ConnectionEvents_callback_discipline SampleJson.codec
              (obj connectedWorld) connectedWorld
              [Transport_onDisconnected; Transport_onClosed;
               Transport_onDisconnected] eq_refl)
    as (_ & _ & _ & _ & es & Hhistory & Honce & _).
  exists es. split; assumption.
Defined.

(** ** Certificate exchange *)

Section CertificateExchange.

Variable json : Json.

(** C5, as the code has it.  A non-empty response that parses as JSON is
    stored through [storeConnectionConfig] and the client handle is
    dropped; an empty response stores nothing and the handle is dropped
    all the same; a non-empty response that does not parse makes
    [parseJson] throw before anything is stored and before the handle is
    dropped. *)
Theorem certResponse_stores_and_drops
    (message : dynamic) (gettingCert : SonarStep) (response : string)
    (s : SonarWebSocketImpl) :
  let r := signal json (CertResponseSubscriber message gettingCert)
             (OnSuccess response) s in
  (response <> "" ->
   forall config, parseJson json response = Some config ->
     outcomeOf r = Returns tt /\ stored (effectsOf r) = [config] /\
     client_ (stateOf r) = None) /\
  (response = "" ->
     outcomeOf r = Returns tt /\ stored (effectsOf r) = [] /\
     client_ (stateOf r) = None) /\
  (response <> "" -> parseJson json response = None ->
     (exists e, outcomeOf r = Throws e) /\ effectsOf r = [] /\ stateOf r = s).
Proof.
  cbn zeta. cbn [signal]. unfold certResponse, parseJsonOrThrow.
  destruct (String.eqb_spec response "") as [Hempty | Hfull].
  - subst response. repeat split; intros; try contradiction; crunch; reflexivity.
  - split; [| split]; intros.
    + rewrite H0. destruct s. repeat split; reflexivity.
    + contradiction.
    + rewrite H0. destruct s. repeat split; try reflexivity.
      eexists; reflexivity.
Qed.

(** C6. The request lambda sends [message] by [requestResponse] and
    subscribes the pair of lambdas that captured it.  When the error that
    comes back is an [ErrorWithPayload] whose payload is "not implemented"
    and a client handle is installed, that same [message] goes out once more,
    by [fireAndForget], and the completion of that send drops the handle.
    For any other payload the error is logged: nothing is sent, scheduled
    or subscribed and the object is left as it was. *)
Theorem certError_legacy_fallback
    (env : Env) (message : dynamic) (gettingCert : SonarStep)
    (payload : string) (s : SonarWebSocketImpl) (client : RSocketClient) :
  let request := runClosure json env (CertRequestClosure message gettingCert) s in
  let r := signal json (CertResponseSubscriber message gettingCert)
             (OnError (ErrorWithPayload payload)) s in
  (client_ s = Some client ->
     sent (effectsOf request) = [(client, toJson json message)] /\
     subscriptions (effectsOf request) =
       [CertResponseSubscriber message gettingCert]) /\
  (payload = "not implemented" -> client_ s = Some client ->
     outcomeOf r = Returns tt /\
     sent (effectsOf r) = [(client, toJson json message)] /\
     stateOf r = s /\
     exists sub,
       effectsOf r = [StepStart "Sending fallback certificate request";
                      FireAndForget client (toJson json message) sub] /\
       client_ (stateOf (signal json sub OnComplete (stateOf r))) = None) /\
  (payload <> "not implemented" ->
     outcomeOf r = Returns tt /\
     (exists text, effectsOf r = [Log text]) /\
     sent (effectsOf r) = [] /\ scheduled (effectsOf r) = [] /\
     subscriptions (effectsOf r) = [] /\
     stateOf r = s).
Proof.
  cbn zeta. cbn [signal]. unfold certError.
  split; [| split].
  - intro Hclient. destruct s as [d open trusted failed c].
    cbn in Hclient. subst c. split; reflexivity.
  - intros Hpayload Hclient. subst payload.
    destruct s as [d open trusted failed c]. cbn in Hclient. subst c.
    repeat split. eexists. split; reflexivity.
  - intro Hpayload.
    destruct (String.eqb_spec payload "not implemented") as [Heq | _];
      [contradiction |].
    repeat split. eexists. reflexivity.
Qed.

End CertificateExchange.

(** C5 as the specification states it fails: the bootstrap channel is up, the
    certificate request is out, and the desktop answers with a body that
    is not empty and not JSON.  Nothing is stored, and the client handle
    is still installed. *)
Lemma certResponse_malformed_keeps_handle :
  let before := exchangingWorld in
  let after := step SampleJson.codec (Transport_signal 0 (OnSuccess "oops"))
                 before in
  "oops" <> "" /\
  subscribed before =
    [CertResponseSubscriber sampleCertMessage "Getting cert from desktop"] /\
  stored (history after) = [] /\
  client_ (obj after) = client_ (obj before) /\
  client_ (obj after) <> None.
Proof.
  cbn zeta. split; [discriminate |]. vm_compute.
  repeat split; try reflexivity. discriminate.
Qed.

(** The amended C5 on the response the spec names, on an empty response
    and on the malformed one. *)
Lemma certResponse_stores_and_drops_witness :
  let answer := fun response =>
    signal SampleJson.codec
      (CertResponseSubscriber sampleCertMessage "Getting cert from desktop")
      (OnSuccess response) (obj exchangingWorld) in
  (stored (effectsOf (answer (toJson SampleJson.codec sampleConfig)))
     = [sampleConfig] /\
   client_ (stateOf (answer (toJson SampleJson.codec sampleConfig))) = None) /\
  (stored (effectsOf (answer "")) = [] /\
   client_ (stateOf (answer "")) = None) /\
  stateOf (answer "oops") = obj exchangingWorld.
Proof.
  cbn zeta.
  destruct (certResponse_stores_and_drops SampleJson.codec sampleCertMessage
              "Getting cert from desktop"
              (toJson SampleJson.codec sampleConfig) (obj exchangingWorld))
    as (Hfull & _ & _).
  destruct (certResponse_stores_and_drops SampleJson.codec sampleCertMessage
              "Getting cert from desktop" "" (obj exchangingWorld))
    as (_ & Hempty & _).
  destruct (certResponse_stores_and_drops SampleJson.codec sampleCertMessage
              "Getting cert from desktop" "oops" (obj exchangingWorld))
    as (_ & _ & Hbad).
  split; [| split].
  - apply (Hfull ltac:(discriminate) sampleConfig eq_refl).
  - apply (Hempty eq_refl).
  - apply (Hbad ltac:(discriminate) eq_refl).
Defined.

(** C6 at work on the bootstrap channel. *)
Lemma certError_legacy_fallback_witness :
  exists client,
    client_ (obj exchangingWorld) = Some client /\
    sent (effectsOf
            (signal SampleJson.codec
               (CertResponseSubscriber sampleCertMessage
                  "Getting cert from desktop")
               (OnError (ErrorWithPayload "not implemented"))
               (obj exchangingWorld)))
      = [(client, toJson SampleJson.codec sampleCertMessage)] /\
    sent (effectsOf
            (signal SampleJson.codec
               (CertResponseSubscriber sampleCertMessage
                  "Getting cert from desktop")
               (OnError (ErrorWithPayload "no such method"))
               (obj exchangingWorld)))
      = [].
Proof.
  destruct (client_ (obj exchangingWorld)) as [client |] eqn:Hclient;
    [| discriminate Hclient].
  exists client. split; [reflexivity |].
  destruct (certError_legacy_fallback SampleJson.codec envNoCertificates
              sampleCertMessage "Getting cert from desktop"
              "not implemented" (obj exchangingWorld) client)
    as (_ & Hlegacy & _).
  destruct (certError_legacy_fallback SampleJson.codec envNoCertificates
              sampleCertMessage "Getting cert from desktop"
              "no such method" (obj exchangingWorld) client)
    as (_ & _ & Hother).
  split.
  - apply (Hlegacy eq_refl Hclient).
  - apply (Hother ltac:(discriminate)).
Defined.

(** ** Outbound and inbound messages *)

Section Messages.

Variable json : Json.

(** C7, as the code has it.  [sendMessage] returns after handing a lambda to
    the event base, whatever the state.  Whether the message is dropped is
    decided when that lambda runs: with no client handle installed at that
    moment it returns without a call on the transport, and the world it
    leaves is the world before it with the lambda gone, so the message is
    kept nowhere and nothing later can deliver it. *)
Theorem sendMessage_dropped_without_handle
    (w : World) (n : nat) (env : Env) (message : dynamic) :
  crashed w = false ->
  nth_error (pending w) n = Some (SendClosure message) ->
  client_ (obj w) = None ->
  (forall s, sendMessage message s =
               (Returns tt, s, [EventBaseAdd (SendClosure message)])) /\
  runClosure json env (SendClosure message) (obj w) = (Returns tt, obj w, []) /\
  step json (Run n env) w = takePending n w /\
  sent (history (step json (Run n env) w)) = sent (history w).
Proof.
  intros Hcrashed Hnth Hclient.
  assert (Hdrop : runClosure json env (SendClosure message) (obj w)
                  = (Returns tt, obj w, [])).
  { destruct (obj w) as [d open trusted failed c]. cbn in Hclient. subst c.
    reflexivity. }
  assert (Hstep : step json (Run n env) w = takePending n w).
  { unfold step. rewrite Hcrashed, Hnth.
    apply (perform_nothing _ (takePending n w)). exact Hdrop. }
  repeat split; try assumption. rewrite Hstep. reflexivity.
Qed.

Lemma step_sendMessage (w : World) (message : dynamic) :
  crashed w = false ->
  step json (Call_sendMessage message) w =
    {| obj := obj w; pending := pending w ++ [SendClosure message];
       subscribed := subscribed w;
       history := history w ++ [EventBaseAdd (SendClosure message)];
       crashed := false |}.
Proof.
  intro Hcrashed. unfold step, perform. rewrite Hcrashed.
  destruct w as [o pend subs hist cr]. cbn in *. subst cr.
  rewrite app_nil_r. reflexivity.
Qed.

Lemma step_send_lambda
    (w : World) (n : nat) (env : Env) (message : dynamic)
    (client : RSocketClient) :
  crashed w = false ->
  nth_error (pending w) n = Some (SendClosure message) ->
  client_ (obj w) = Some client ->
  obj (step json (Run n env) w) = obj w /\
  history (step json (Run n env) w) =
    history w ++ [FireAndForget client (toJson json message) EmptySubscriber].
Proof.
  intros Hcrashed Hnth Hclient. unfold step. rewrite Hcrashed, Hnth.
  rewrite perform_obj, perform_history. cbn [obj history takePending].
  destruct (obj w) as [d open trusted failed c]. cbn in Hclient. subst c.
  split; reflexivity.
Qed.

(** C9. [sendMessage] hands the event base a lambda that carries the
    message and does nothing else.  That lambda looks at the client handle
    alone: whenever it runs with a handle installed the payload goes out on
    that handle by [fireAndForget], whatever the open and trust flags say.
    After [doCertificateExchange] has connected, the handle installed is
    the client of the insecure port, opened without a TLS context, the
    trust flag is false and [isOpen] answers false; a [sendMessage] then,
    once its lambda runs, puts the application's message on that
    client. *)
Theorem sendMessage_forwards_on_untrusted_handle
    (env envSend : Env) (s : SonarWebSocketImpl) (message : dynamic)
    (c : nat) (w : World) (n : nat) (handle : RSocketClient) :
  connectFuture_get env = inl c ->
  (forall s' client, client_ s' = Some client ->
     effectsOf (runClosure json envSend (SendClosure message) s') =
       [FireAndForget client (toJson json message) EmptySubscriber]) /\
  (let s1 := stateOf (doCertificateExchange json env s) in
   connectionIsTrusted_ s1 = false /\ isOpen s1 = false /\
   exists client,
     client_ s1 = Some client /\
     connection client = c /\
     addressPort (request client) = insecurePort /\
     sslContext (request client) = false /\
     sent (effectsOf (runClosure json envSend (SendClosure message) s1)) =
       [(client, toJson json message)]) /\
  (crashed w = false ->
     obj (step json (Call_sendMessage message) w) = obj w /\
     pending (step json (Call_sendMessage message) w) =
       pending w ++ [SendClosure message] /\
     added w (step json (Call_sendMessage message) w) =
       [EventBaseAdd (SendClosure message)]) /\
  (crashed w = false ->
   nth_error (pending w) n = Some (SendClosure message) ->
   client_ (obj w) = Some handle ->
     obj (step json (Run n envSend) w) = obj w /\
     added w (step json (Run n envSend) w) =
       [FireAndForget handle (toJson json message) EmptySubscriber]) /\
  (crashed w = false ->
   obj w = stateOf (doCertificateExchange json env s) ->
     let w1 := step json (Call_sendMessage message) w in
     let w2 := step json (Run (List.length (pending w)) envSend) w1 in
     connectionIsTrusted_ (obj w2) = false /\
     isOpen (obj w2) = false /\
     exists bootstrap,
       client_ (obj w2) = Some bootstrap /\
       connection bootstrap = c /\
       bootstrapSetup (request bootstrap) = true /\
       sent (added w1 w2) = [(bootstrap, toJson json message)]).
Proof.
  intro Hconnect.
  split; [| split; [| split; [| split]]].
  - intros s' client Hclient. destruct s' as [d open trusted failed c'].
    cbn in Hclient. subst c'. reflexivity.
  - destruct env as [inThread has devId csr dir conn].
    cbn in Hconnect. subst conn.
    destruct s as [d open trusted failed c'].
    cbn. split; [reflexivity |]. split; [apply andb_false_r |].
    eexists. repeat split.
  - intro Hcrashed. rewrite (step_sendMessage w message Hcrashed).
    split; [reflexivity |]. split; [reflexivity |].
    apply added_app. reflexivity.
  - intros Hcrashed Hnth Hhandle.
    destruct (step_send_lambda w n envSend message handle
                Hcrashed Hnth Hhandle) as [Hobj Hhistory].
    split; [exact Hobj |]. apply added_app. exact Hhistory.
  - intros Hcrashed Hobj w1 w2.
    destruct env as [inThread has devId csr dir conn].
    cbn in Hconnect. subst conn.
    destruct s as [d open trusted failed c'].
    cbn in Hobj.
    assert (Hw1 : w1 = {| obj := obj w;
                          pending := pending w ++ [SendClosure message];
                          subscribed := subscribed w;
                          history := history w
                                     ++ [EventBaseAdd (SendClosure message)];
                          crashed := false |})
      by (apply step_sendMessage; exact Hcrashed).
    assert (Hnth : nth_error (pending w1) (List.length (pending w))
                   = Some (SendClosure message)).
    { rewrite Hw1. cbn [pending].
      rewrite nth_error_app2 by apply Nat.le_refl.
      rewrite Nat.sub_diag. reflexivity. }
    assert (Hcrashed1 : crashed w1 = false) by (rewrite Hw1; reflexivity).
    assert (Hobj1 : obj w1 = obj w) by (rewrite Hw1; reflexivity).
    match type of Hobj with
    | _ = ?r => assert (Hclient : client_ (obj w1) = client_ r)
                  by (rewrite Hobj1, Hobj; reflexivity)
    end.
    cbn [client_] in Hclient.
    destruct (step_send_lambda w1 (List.length (pending w)) envSend message _
                Hcrashed1 Hnth Hclient) as [Hobj2 Hhistory].
    fold w2 in Hobj2, Hhistory.
    rewrite Hobj2, Hobj1, Hobj. cbn [connectionIsTrusted_ isOpen_ client_].
    split; [reflexivity |].
    split; [unfold isOpen; cbn; apply andb_false_r |].
    eexists. split; [reflexivity |]. split; [reflexivity |].
    split; [reflexivity |].
    rewrite (added_app w1 w2 _ Hhistory). reflexivity.
Qed.

(** C10. [handleFireAndForget] hands the application the value
    [parseJson] makes of the payload, once; when the payload is not JSON
    the parse throws, the exception leaves the responder, and the
    application is not called. *)
Theorem handleFireAndForget_parses_or_throws
    (payload : string) (s : SonarWebSocketImpl) :
  let r := Responder_handleFireAndForget json payload s in
  (forall message, parseJson json payload = Some message ->
     outcomeOf r = Returns tt /\
     effectsOf r = [CallbackOnMessageReceived message] /\ stateOf r = s) /\
  (parseJson json payload = None ->
     (exists e, outcomeOf r = Throws e) /\ effectsOf r = [] /\ stateOf r = s).
Proof.
  cbn zeta. unfold Responder_handleFireAndForget, parseJsonOrThrow.
  split; intros.
  - rewrite H. repeat split.
  - rewrite H. repeat split. eexists. reflexivity.
Qed.

End Messages.

(** C7 as the specification states it fails: [sendMessage] is called while no
    client handle is installed and nothing is open, behind a start lambda
    that has not run yet.  The start lambda connects, and the send lambda,
    running after it, delivers the message. *)
Lemma sendMessage_before_connect_is_delivered :
  let atIssue := run SampleJson.codec [Call_start] (constructed sampleDevice) in
  let final := run SampleJson.codec
                 [Call_sendMessage sampleMessage; Run 0 envListening;
                  Transport_onConnected; Run 0 envListening] atIssue in
  client_ (obj atIssue) = None /\
  isOpen_ (obj atIssue) = false /\
  sent (history atIssue) = [] /\
  exists client,
    client_ (obj final) = Some client /\
    sent (history final) = [(client, toJson SampleJson.codec sampleMessage)].
Proof.
  cbn zeta. repeat split. eexists. split; reflexivity.
Qed.

(** The amended C7: the send lambda runs before anything has connected. *)
Lemma sendMessage_dropped_without_handle_witness :
  let w := step SampleJson.codec (Call_sendMessage sampleMessage)
             (constructed sampleDevice) in
  crashed w = false /\
  nth_error (pending w) 0 = Some (SendClosure sampleMessage) /\
  client_ (obj w) = None /\
  step SampleJson.codec (Run 0 envListening) w = takePending 0 w /\
  sent (history (run SampleJson.codec
                   [Run 0 envListening; Call_start; Run 0 envListening;
                    Transport_onConnected] w)) = [].
Proof.
  cbn zeta. split; [reflexivity |]. split; [reflexivity |].
  split; [reflexivity |].
  destruct (sendMessage_dropped_without_handle SampleJson.codec
              (step SampleJson.codec (Call_sendMessage sampleMessage)
                 (constructed sampleDevice))
              0 envListening sampleMessage eq_refl eq_refl eq_refl)
    as (_ & _ & Hstep & _).
  split; [exact Hstep | reflexivity].
Defined.

(** C9 at work: [sendMessage] during the certificate exchange, then the
    event base runs its lambda; the message goes out on the client of the
    insecure port. *)
Lemma sendMessage_forwards_on_untrusted_handle_witness :
  connectFuture_get envNoCertificates = inl 7%nat /\
  crashed bootstrapWorld = false /\
  obj bootstrapWorld =
    stateOf (doCertificateExchange SampleJson.codec envNoCertificates
               sampleObject) /\
  exists bootstrap,
    client_ (obj bootstrapWorld) = Some bootstrap /\
    bootstrapSetup (request bootstrap) = true /\
    sent (added (step SampleJson.codec (Call_sendMessage sampleMessage)
                   bootstrapWorld)
            (run SampleJson.codec
               [Call_sendMessage sampleMessage; Run 1 envListening]
               bootstrapWorld))
      = [(bootstrap, toJson SampleJson.codec sampleMessage)].
Proof.
  split; [reflexivity |]. split; [reflexivity |]. split; [reflexivity |].
  assert (exists handle, client_ (obj bootstrapWorld) = Some handle)
    as [handle Hhandle] by (eexists; reflexivity).
  destruct (sendMessage_forwards_on_untrusted_handle SampleJson.codec
              envNoCertificates envListening sampleObject sampleMessage 7
              bootstrapWorld 0 handle eq_refl)
    as (_ & _ & _ & _ & Hexchange).
  destruct (Hexchange eq_refl eq_refl)
    as (_ & _ & bootstrap & Hclient & _ & Hsetup & Hsent).
  exists bootstrap. split; [exact Hclient |]. split; [exact Hsetup |].
  exact Hsent.
Defined.

(** C10 at work on a payload that is JSON and on one that is not. *)
Lemma handleFireAndForget_parses_or_throws_witness :
  effectsOf (Responder_handleFireAndForget SampleJson.codec
               (toJson SampleJson.codec sampleMessage) (obj connectedWorld))
    = [CallbackOnMessageReceived sampleMessage] /\
  effectsOf (Responder_handleFireAndForget SampleJson.codec "ping"
               (obj connectedWorld)) = [].
Proof.
  split.
  - apply (handleFireAndForget_parses_or_throws SampleJson.codec
             (toJson SampleJson.codec sampleMessage) (obj connectedWorld)).
    reflexivity.
  - apply (handleFireAndForget_parses_or_throws SampleJson.codec "ping"
             (obj connectedWorld)).
    reflexivity.
Defined.

(** ** [stop] and the reconnect timer *)

(** C4 fails on the code.  First run: the desktop is not running, the
    pass schedules a reconnect, [stop()] is called, and the reconnect
    lambda, still pending, connects securely; the application is told it is
    connected.  Second run: [stop()] on a live connection makes the
    transport report the loss, which schedules a reconnect that connects
    again. *)
Lemma stop_does_not_cancel_reconnect :
  let stopped := step SampleJson.codec Call_stop retryingWorld in
  let resurrected := run SampleJson.codec
                       [Run 0 envListening; Transport_onConnected] stopped in
  let stoppedLive := run SampleJson.codec [Call_stop; Transport_onDisconnected]
                       connectedWorld in
  let reconnected := run SampleJson.codec
                       [Run 0 envListening; Transport_onConnected]
                       stoppedLive in
  (isOpen (obj stopped) = false /\
   client_ (obj stopped) = None /\
   pending stopped = [ReconnectClosure] /\
   isOpen (obj resurrected) = true /\
   client_ (obj resurrected) <> None /\
   callbacks (history resurrected) = [CallbackOnConnected]) /\
  (isOpen (obj stoppedLive) = false /\
   client_ (obj stoppedLive) = None /\
   pending stoppedLive = [ReconnectClosure] /\
   isOpen (obj reconnected) = true /\
   callbacks (history reconnected) =
     [CallbackOnConnected; CallbackOnDisconnected; CallbackOnConnected]).
Proof.
  vm_compute. repeat split; try reflexivity; discriminate.
Qed.

(** ** Further properties of [startSync] *)

Section Passes.

Variable json : Json.

(** X1. A pass that finds itself outside the event base thread, or finds
    [isOpen] true, logs one line and returns: the object is untouched,
    nothing is connected, and no reconnect is scheduled.  The thread is
    tested first. *)
Theorem startSync_guards (env : Env) (s : SonarWebSocketImpl) :
  isInEventBaseThread env = false \/ isOpen s = true ->
  outcomeOf (startSync json env s) = Returns tt /\
  stateOf (startSync json env s) = s /\
  effectsOf (startSync json env s) =
    [Log (if isInEventBaseThread env then "Already connected"
          else WRONG_THREAD_EXIT_MSG)] /\
  scheduled (effectsOf (startSync json env s)) = [] /\
  connectRequests (effectsOf (startSync json env s)) = [].
Proof.
  intros Hguard. unfold startSync.
  destruct (isInEventBaseThread env) eqn:Hthread; cbn [negb].
  - destruct Hguard as [Hoff | Hopen]; [discriminate |].
    unfold bind, gets, emit, outcomeOf, stateOf, effectsOf. cbn.
    rewrite Hopen. cbn. repeat split.
  - repeat split.
Qed.

(** X3. A pass never lets an exception out: whatever the connect throws is
    caught.  Past the guards, a connect that throws schedules one reconnect,
    [reconnectIntervalSeconds] later, and nothing else; a secure connect
    that succeeds schedules nothing; a bootstrap connect that succeeds
    hands the certificate request lambda to the event base and schedules no
    reconnect. *)
Theorem startSync_returns_and_retries (env : Env) (s : SonarWebSocketImpl) :
  isInEventBaseThread env = true ->
  isOpen s = false ->
  outcomeOf (startSync json env s) = Returns tt /\
  filter isScheduling (effectsOf (startSync json env s)) =
    match connectFuture_get env with
    | inr _ =>
        [FutureDelayed (reconnectIntervalSeconds * 1000) ReconnectClosure]
    | inl _ =>
        if (2 <=? failedConnectionAttempts_ s) || negb (hasRequiredFiles env)
        then [EventBaseAdd (CertRequestClosure (signCertificateMessage env)
                              "Getting cert from desktop")]
        else []
    end.
Proof.
  intros Hthread Hopen.
  destruct env as [inThread has devId csr dir conn];
  destruct s as [d open trusted failed client].
  unfoldM. cbn in Hthread, Hopen. subst inThread.
  cbn -[Z.leb Z.add Z.mul String.eqb].
  rewrite Hopen.
  crunch; repeat split; reflexivity.
Qed.

End Passes.

(** X3 at work: a handshake failure schedules one reconnect. *)
Lemma startSync_returns_and_retries_witness :
  isInEventBaseThread envHandshakeFailure = true /\
  isOpen sampleObject = false /\
  filter isScheduling
    (effectsOf (startSync SampleJson.codec envHandshakeFailure sampleObject))
    = [FutureDelayed 2000 ReconnectClosure] /\
  filter isScheduling
    (effectsOf (startSync SampleJson.codec envListening sampleObject)) = [].
Proof.
  split; [reflexivity |]. split; [reflexivity |].
  pose proof (startSync_returns_and_retries SampleJson.codec
                envHandshakeFailure sampleObject eq_refl eq_refl) as [_ Hfail].
  pose proof (startSync_returns_and_retries SampleJson.codec
                envListening sampleObject eq_refl eq_refl) as [_ Hok].
  split; [exact Hfail | exact Hok].
Defined.

(** X1 at work: the start lambda runs on the wrong thread, and a reconnect
    lambda runs on a live connection. *)
Lemma startSync_guards_witness :
  isInEventBaseThread envWrongThread = false /\
  isOpen (obj connectedWorld) = true /\
  stateOf (startSync SampleJson.codec envWrongThread sampleObject)
    = sampleObject /\
  effectsOf (startSync SampleJson.codec envListening (obj connectedWorld))
    = [Log "Already connected"].
Proof.
  split; [reflexivity |]. split; [reflexivity |]. split.
  - apply (startSync_guards SampleJson.codec envWrongThread sampleObject).
    left. reflexivity.
  - destruct (startSync_guards SampleJson.codec envListening
                (obj connectedWorld) (or_intror eq_refl))
      as (_ & _ & Heffects & _).
    exact Heffects.
Defined.

(** ** [stop], lost connections and the client handle *)

Section Handle.

Variable json : Json.

(** X4. [stop] asks the transport to disconnect exactly when a client
    handle is installed, clears the handle, and touches neither flag nor
    the counter; a second [stop] does nothing at all. *)
Theorem stop_clears_handle_once (s : SonarWebSocketImpl) :
  outcomeOf (stop s) = Returns tt /\
  effectsOf (stop s) =
    match client_ s with
    | Some client => [ClientDisconnect client]
    | None => []
    end /\
  stateOf (stop s) = set_client_ None s /\
  stop (stateOf (stop s)) = (Returns tt, stateOf (stop s), []).
Proof.
  destruct s as [d open trusted failed [client |]]; repeat split.
Qed.

(** X13. The loss of the connection does not clear the client handle: the
    handle installed before a Disconnected or Closed event is installed
    after it, and a message sent after the loss is handed to that
    client. *)
Theorem loss_keeps_client_handle
    (env : Env) (s : SonarWebSocketImpl) (client : RSocketClient)
    (message : dynamic) :
  client_ s = Some client ->
  client_ (stateOf (ConnectionEvents_onDisconnected s)) = Some client /\
  client_ (stateOf (ConnectionEvents_onClosed s)) = Some client /\
  effectsOf (runClosure json env (SendClosure message)
               (stateOf (ConnectionEvents_onDisconnected s))) =
    [FireAndForget client (toJson json message) EmptySubscriber].
Proof.
  intro Hclient. destruct s as [d open trusted failed c].
  cbn in Hclient. subst c.
  destruct open, trusted; repeat split.
Qed.

(** X9. The certificate request lambda and the legacy request dereference
    [client_] without a test.  With no handle installed either one
    dereferences null; so a [stop] that comes between the bootstrap connect
    and the request lambda leaves the event base with a lambda that
    crashes when it runs. *)
Theorem certificate_request_after_stop
    (w : World) (n : nat) (env : Env) (message : dynamic)
    (gettingCert : SonarStep) :
  crashed w = false ->
  nth_error (pending w) n = Some (CertRequestClosure message gettingCert) ->
  (forall s, client_ s = None ->
     outcomeOf (runClosure json env (CertRequestClosure message gettingCert) s)
       = NullDereference /\
     outcomeOf (sendLegacyCertificateRequest json message s)
       = NullDereference) /\
  crashed (step json Call_stop w) = false /\
  crashed (step json (Run n env) (step json Call_stop w)) = true.
Proof.
  intros Hcrashed Hnth. split; [| split].
  - intros s Hclient. destruct s as [d open trusted failed c].
    cbn in Hclient. subst c. split; reflexivity.
  - unfold step. rewrite Hcrashed. unfold perform.
    destruct (obj w) as [d open trusted failed [c |]]; cbn; assumption.
  - unfold step at 2. rewrite Hcrashed.
    unfold step, perform.
    destruct w as [[d open trusted failed [c |]] pend subs hist cr];
      cbn in *; subst cr; cbn; rewrite !app_nil_r, Hnth; reflexivity.
Qed.

End Handle.

(** X13 at work on a secure connection that is lost. *)
Lemma loss_keeps_client_handle_witness :
  exists client,
    client_ (obj connectedWorld) = Some client /\
    client_ (obj (step SampleJson.codec Transport_onDisconnected
                    connectedWorld)) = Some client /\
    sent (effectsOf
            (runClosure SampleJson.codec envListening (SendClosure sampleMessage)
               (stateOf (ConnectionEvents_onDisconnected (obj connectedWorld)))))
      = [(client, toJson SampleJson.codec sampleMessage)].
Proof.
  destruct (client_ (obj connectedWorld)) as [client |] eqn:Hclient;
    [| discriminate Hclient].
  exists client. split; [reflexivity |].
  destruct (loss_keeps_client_handle SampleJson.codec envListening
              (obj connectedWorld) client sampleMessage Hclient)
    as (Hkept & _ & Hsent).
  split; [exact Hkept |].
  rewrite Hsent. reflexivity.
Defined.

(** X9 at work: [stop] right after the bootstrap connect. *)
Lemma certificate_request_after_stop_witness :
  crashed bootstrapWorld = false /\
  nth_error (pending bootstrapWorld) 0 =
    Some (CertRequestClosure sampleCertMessage "Getting cert from desktop") /\
  crashed (run SampleJson.codec [Call_stop; Run 0 envNoCertificates]
             bootstrapWorld) = true.
Proof.
  split; [reflexivity |]. split; [reflexivity |].
  apply (certificate_request_after_stop SampleJson.codec bootstrapWorld 0
           envNoCertificates sampleCertMessage "Getting cert from desktop"
           eq_refl eq_refl).
Defined.

(** ** The counter and the trust flag over several passes *)

Section SeveralPasses.

Variable json : Json.

Lemma startSync_keeps_isOpen_ (env : Env) (s : SonarWebSocketImpl) :
  isOpen_ (stateOf (startSync json env s)) = isOpen_ s.
Proof.
  destruct env as [inThread has devId csr dir conn];
  destruct s as [d open trusted failed client].
  crunch; reflexivity.
Qed.

Lemma closed_is_not_open (s : SonarWebSocketImpl) :
  isOpen_ s = false -> isOpen s = false.
Proof. intro H. unfold isOpen. rewrite H. reflexivity. Qed.

Lemma startSync_counts (env : Env) (s : SonarWebSocketImpl) :
  isInEventBaseThread env = true -> isOpen s = false ->
  countedFailure env = true ->
  failedConnectionAttempts_ (stateOf (startSync json env s)) =
    failedConnectionAttempts_ s + 1.
Proof.
  intros Hthread Hopen Hcounted.
  destruct env as [inThread has devId csr dir conn];
  destruct s as [d open trusted failed client].
  unfold countedFailure in Hcounted.
  unfoldM. cbn in Hthread, Hopen, Hcounted. subst inThread.
  cbn -[Z.leb Z.add String.eqb]. rewrite Hopen.
  cbn [failedConnectionAttempts_].
  destruct conn as [c | [[] msg | payload | msg]]; try discriminate Hcounted;
    crunch; reflexivity.
Qed.

Lemma startSync_forced (env : Env) (s : SonarWebSocketImpl) :
  isInEventBaseThread env = true -> isOpen s = false ->
  2 <= failedConnectionAttempts_ s ->
  connectsTo insecurePort (effectsOf (startSync json env s)) = true /\
  connectsTo securePort (effectsOf (startSync json env s)) = false.
Proof.
  intros Hthread Hopen Hfailed.
  destruct env as [inThread has devId csr dir conn];
  destruct s as [d open trusted failed client].
  unfoldM. cbn in Hthread, Hopen.
  cbn [failedConnectionAttempts_] in Hfailed. subst inThread.
  cbn -[Z.leb Z.add String.eqb]. rewrite Hopen.
  cbn [failedConnectionAttempts_].
  apply Z.leb_le in Hfailed. rewrite Hfailed.
  crunch; split; reflexivity.
Qed.

(** X7. Two passes in a row whose connect fails with anything but
    [NOT_OPEN] add 2 to the counter, and the pass after them takes the
    bootstrap path whatever the context store says about the certificate
    files. *)
Theorem two_counted_failures_force_bootstrap
    (env1 env2 env3 : Env) (s : SonarWebSocketImpl) :
  isOpen_ s = false ->
  0 <= failedConnectionAttempts_ s ->
  isInEventBaseThread env1 = true ->
  isInEventBaseThread env2 = true ->
  isInEventBaseThread env3 = true ->
  countedFailure env1 = true ->
  countedFailure env2 = true ->
  let s2 := stateOf (startSync json env2 (stateOf (startSync json env1 s))) in
  failedConnectionAttempts_ s2 = failedConnectionAttempts_ s + 2 /\
  connectsTo insecurePort (effectsOf (startSync json env3 s2)) = true /\
  connectsTo securePort (effectsOf (startSync json env3 s2)) = false.
Proof.
  intros Hclosed Hfailed Hthread1 Hthread2 Hthread3 Hcounted1 Hcounted2 s2.
  pose proof (startSync_keeps_isOpen_ env1 s) as Hclosed1.
  pose proof (startSync_keeps_isOpen_ env2 (stateOf (startSync json env1 s)))
    as Hclosed2.
  rewrite Hclosed in Hclosed1. rewrite Hclosed1 in Hclosed2.
  pose proof (startSync_counts env1 s Hthread1
                (closed_is_not_open s Hclosed) Hcounted1) as Hcount1.
  pose proof (startSync_counts env2 _ Hthread2
                (closed_is_not_open _ Hclosed1) Hcounted2) as Hcount2.
  assert (Htotal : failedConnectionAttempts_ s2
                   = failedConnectionAttempts_ s + 2)
    by (subst s2; rewrite Hcount2, Hcount1; lia).
  split; [exact Htotal |].
  apply startSync_forced;
    [assumption | apply closed_is_not_open; assumption | lia].
Qed.

(** X12. A bootstrap connect that succeeds forgives what came before: the
    counter is 0 after it, [isOpen] is false, and the next pass takes the
    secure path as soon as the certificate files are there. *)
Theorem bootstrap_connect_forgives_failures
    (env1 env2 : Env) (s : SonarWebSocketImpl) (c : nat) :
  isInEventBaseThread env1 = true ->
  isOpen s = false ->
  2 <= failedConnectionAttempts_ s \/ hasRequiredFiles env1 = false ->
  connectFuture_get env1 = inl c ->
  isInEventBaseThread env2 = true ->
  hasRequiredFiles env2 = true ->
  let s1 := stateOf (startSync json env1 s) in
  failedConnectionAttempts_ s1 = 0 /\
  isOpen s1 = false /\
  connectsTo securePort (effectsOf (startSync json env2 s1)) = true /\
  connectsTo insecurePort (effectsOf (startSync json env2 s1)) = false.
Proof.
  intros Hthread1 Hopen Hneeded Hconnect Hthread2 Hfiles.
  destruct env1 as [inThread1 has1 devId1 csr1 dir1 conn1];
  destruct env2 as [inThread2 has2 devId2 csr2 dir2 conn2];
  destruct s as [d open trusted failed client].
  unfoldM. cbn in Hthread1, Hopen, Hconnect, Hthread2, Hfiles.
  cbn [failedConnectionAttempts_ hasRequiredFiles] in Hneeded.
  subst inThread1 inThread2 conn1 has2.
  cbn -[Z.leb Z.add String.eqb]. rewrite Hopen.
  cbn [failedConnectionAttempts_].
  destruct (2 <=? failed) eqn:Hfailed.
  - cbn -[Z.leb Z.add String.eqb]. rewrite ?andb_false_r.
    crunch; repeat split;
      first [reflexivity
            | match goal with
              | H : (2 <=? 0) = true |- _ => discriminate H
              end].
  - apply Z.leb_gt in Hfailed.
    destruct Hneeded as [Hge | Hnone]; [lia |]. subst has1.
    cbn -[Z.leb Z.add String.eqb]. rewrite ?andb_false_r.
    crunch; repeat split;
      first [reflexivity
            | match goal with
              | H : (2 <=? 0) = true |- _ => discriminate H
              end].
Qed.

(** X8. [connectSecurely] sets the trust flag before it connects and
    nothing takes it back when the connect throws: after a failed secure
    pass the trust flag is true, the client handle and the open flag are
    what they were, and [isOpen] answers what the open flag says, so it
    answers true if the open flag was still set for an earlier channel. *)
Theorem failed_secure_connect_keeps_trust_flag
    (env : Env) (s : SonarWebSocketImpl) (e : Exception) :
  isInEventBaseThread env = true ->
  isOpen s = false ->
  failedConnectionAttempts_ s < 2 ->
  hasRequiredFiles env = true ->
  connectFuture_get env = inr e ->
  let s' := stateOf (startSync json env s) in
  connectionIsTrusted_ s' = true /\
  client_ s' = client_ s /\
  isOpen_ s' = isOpen_ s /\
  isOpen s' = isOpen_ s.
Proof.
  intros Hthread Hopen Hfailed Hfiles Hconnect.
  destruct env as [inThread has devId csr dir conn];
  destruct s as [d open trusted failed client].
  unfoldM. cbn in Hthread, Hopen, Hfiles, Hconnect.
  cbn [failedConnectionAttempts_] in Hfailed.
  subst inThread has conn.
  cbn -[Z.leb Z.add String.eqb]. rewrite Hopen.
  cbn [failedConnectionAttempts_].
  apply Z.leb_gt in Hfailed. rewrite Hfailed.
  crunch; repeat split; try reflexivity; apply andb_true_r.
Qed.

End SeveralPasses.

(** X7 at work: two failed handshakes, then a pass with the certificates
    still on disk. *)
Lemma two_counted_failures_force_bootstrap_witness :
  isOpen_ sampleObject = false /\
  countedFailure envHandshakeFailure = true /\
  hasRequiredFiles envListening = true /\
  connectsTo insecurePort
    (effectsOf
       (startSync SampleJson.codec envListening
          (stateOf (startSync SampleJson.codec envHandshakeFailure
             (stateOf (startSync SampleJson.codec envHandshakeFailure
                sampleObject)))))) = true.
Proof.
  split; [reflexivity |]. split; [reflexivity |]. split; [reflexivity |].
  apply (two_counted_failures_force_bootstrap SampleJson.codec
           envHandshakeFailure envHandshakeFailure envListening sampleObject);
    reflexivity.
Defined.

(** X12 at work: the counter stands at 2, the bootstrap connect succeeds,
    and the next pass connects to the secure port. *)
Lemma bootstrap_connect_forgives_failures_witness :
  let s := set_failedConnectionAttempts_ 2 sampleObject in
  isOpen s = false /\
  connectFuture_get envListening = inl 1%nat /\
  failedConnectionAttempts_
    (stateOf (startSync SampleJson.codec envListening s)) = 0 /\
  connectsTo securePort
    (effectsOf
       (startSync SampleJson.codec envListening
          (stateOf (startSync SampleJson.codec envListening s)))) = true.
Proof.
  cbn zeta. split; [reflexivity |]. split; [reflexivity |].
  assert (Hforced : 2 <= failedConnectionAttempts_
                           (set_failedConnectionAttempts_ 2 sampleObject)
                    \/ hasRequiredFiles envListening = false)
    by (left; apply Z.le_refl).
  destruct (bootstrap_connect_forgives_failures SampleJson.codec
              envListening envListening
              (set_failedConnectionAttempts_ 2 sampleObject) 1
              eq_refl eq_refl Hforced eq_refl eq_refl eq_refl)
    as (Hzero & _ & Hsecure & _).
  split; [exact Hzero | exact Hsecure].
Defined.

(** X8 at work: the bootstrap channel is up and the open flag set when a
    pass with certificates on disk finds the secure port closed; [isOpen]
    then answers true although the only client is the bootstrap one. *)
Lemma failed_secure_connect_keeps_trust_flag_witness :
  let s := obj (step SampleJson.codec Transport_onConnected bootstrapWorld) in
  let s' := stateOf (startSync SampleJson.codec envNotListening s) in
  isOpen s = false /\
  isOpen_ s = true /\
  isOpen s' = true /\
  client_ s' = client_ (obj bootstrapWorld).
Proof.
  cbn zeta. split; [reflexivity |]. split; [reflexivity |].
  destruct (failed_secure_connect_keeps_trust_flag SampleJson.codec
              envNotListening
              (obj (step SampleJson.codec Transport_onConnected bootstrapWorld))
              (AsyncSocketException NOT_OPEN "connect failed")
              eq_refl eq_refl eq_refl eq_refl eq_refl)
    as (_ & Hclient & _ & Hopen).
  split; [rewrite Hopen; reflexivity | rewrite Hclient; reflexivity].
Defined.

(** ** Invariants of every run *)

Section Invariants.

Variable json : Json.

Lemma run_preserves (P : World -> Prop) :
  (forall i w, P w -> P (step json i w)) ->
  forall inputs w, P w -> P (run json inputs w).
Proof.
  intros Hstep inputs. induction inputs as [| i rest IH]; intros w Hw;
    cbn [run]; auto.
Qed.

Lemma step_preserves (Q : SonarWebSocketImpl -> Prop) :
  (forall m s, Handler json m -> Q s -> Q (stateOf (m s))) ->
  forall i w, Q (obj w) -> Q (obj (step json i w)).
Proof.
  intros Hhandler i w Hw.
  destruct (step_cases json i w) as [Heq | (m & w0 & Hm & Hobj & _ & Heq)];
    rewrite Heq; [assumption |].
  rewrite perform_obj, Hobj. auto.
Qed.

Lemma step_extends (i : Input) (w : World) :
  exists es, history (step json i w) = history w ++ es /\
             (step json i w = w \/
              exists m, Handler json m /\ es = effectsOf (m (obj w)) /\
                        obj (step json i w) = stateOf (m (obj w))).
Proof.
  destruct (step_cases json i w) as [Heq | (m & w0 & Hm & Hobj & Hhist & Heq)].
  - exists []. rewrite Heq, app_nil_r. auto.
  - exists (effectsOf (m (obj w))). rewrite Heq, perform_history, perform_obj,
      Hhist, Hobj. split; [reflexivity |]. right. exists m. auto.
Qed.

Lemma run_extends (inputs : list Input) (w : World) :
  exists es, history (run json inputs w) = history w ++ es.
Proof.
  revert w. induction inputs as [| i rest IH]; intro w; cbn [run].
  - exists []. rewrite app_nil_r. reflexivity.
  - destruct (step_extends i w) as (es1 & H1 & _).
    destruct (IH (step json i w)) as (es2 & H2).
    exists (es1 ++ es2). rewrite H2, H1, app_assoc. reflexivity.
Qed.

Lemma Handler_keeps_counter_nonnegative (m : M unit) (s : SonarWebSocketImpl) :
  Handler json m ->
  0 <= failedConnectionAttempts_ s ->
  0 <= failedConnectionAttempts_ (stateOf (m s)).
Proof.
  intros Hm Hs.
  destruct s as [d open trusted failed client].
  cbn [failedConnectionAttempts_] in Hs.
  destruct Hm as [ | | message | env c | | | | payload | sub sig];
    try destruct env as [inThread has devId csr dir conn];
    try destruct c; try destruct sub; try destruct sig;
    crunch; lia.
Qed.

(** X6. The failure counter never goes below zero: no call, lambda,
    transport event or reply takes a non-negative counter to a negative
    one. *)
Theorem failedConnectionAttempts_nonnegative
    (inputs : list Input) (w : World) :
  0 <= failedConnectionAttempts_ (obj w) ->
  0 <= failedConnectionAttempts_ (obj (run json inputs w)).
Proof.
  revert w. apply (run_preserves
                     (fun w => 0 <= failedConnectionAttempts_ (obj w))).
  apply (step_preserves (fun s => 0 <= failedConnectionAttempts_ s)).
  intros m s Hm. apply Handler_keeps_counter_nonnegative, Hm.
Qed.

Lemma connectRequests_app (es1 es2 : list Effect) :
  connectRequests (es1 ++ es2) = connectRequests es1 ++ connectRequests es2.
Proof.
  induction es1 as [| e es1 IH]; [reflexivity |].
  destruct e; simpl; rewrite ?IH; reflexivity.
Qed.

Lemma Handler_connects_known (m : M unit) (s : SonarWebSocketImpl) :
  Handler json m ->
  deviceData_ (stateOf (m s)) = deviceData_ s /\
  (handleKnown s -> handleKnown (stateOf (m s))) /\
  Forall (fun r => knownSetup r = true /\ addressHost r = host (deviceData_ s))
    (connectRequests (effectsOf (m s))).
Proof.
  intros Hm. unfold handleKnown.
  destruct s as [d open trusted failed client].
  destruct Hm as [ | | message | env c | | | | payload | sub sig];
    try destruct env as [inThread has devId csr dir conn];
    try destruct c; try destruct sub; try destruct sig;
    crunch;
    (split; [reflexivity |]);
    (split; [intros Hknown c0 Hc0;
             first [discriminate Hc0
                   | injection Hc0 as <-; split; reflexivity
                   | apply Hknown; exact Hc0]
            |]);
    repeat constructor.
Qed.

(** X2. Every connect the object asks for is one of two kinds: to the
    insecure port with no TLS context and no responder, or to the secure
    port with a TLS context and a responder; always to the host of the
    device data, with the keepalive of the file.  The device data are never
    written, and the client handle installed is always a client of one of
    the two kinds. *)
Theorem connects_are_bootstrap_or_secure (inputs : list Input) (w : World) :
  handleKnown (obj w) ->
  deviceData_ (obj (run json inputs w)) = deviceData_ (obj w) /\
  handleKnown (obj (run json inputs w)) /\
  Forall (fun r => knownSetup r = true /\
                   addressHost r = host (deviceData_ (obj w)))
    (connectRequests (added w (run json inputs w))).
Proof.
  revert w. induction inputs as [| i rest IH]; intros w Hknown; cbn [run].
  - rewrite (added_app w w []) by (rewrite app_nil_r; reflexivity).
    split; [reflexivity | split; [assumption | constructor]].
  - destruct (step_extends i w) as (es1 & Hes1 & Hstep).
    destruct (run_extends rest (step json i w)) as (es2 & Hes2).
    assert (Hone : deviceData_ (obj (step json i w)) = deviceData_ (obj w) /\
                   handleKnown (obj (step json i w)) /\
                   Forall (fun r => knownSetup r = true /\
                                    addressHost r = host (deviceData_ (obj w)))
                     (connectRequests es1)).
    { destruct Hstep as [Hsame | (m & Hm & Hes & Hobj)].
      - rewrite Hsame in Hes1.
        assert (es1 = []) as ->.
        { apply (app_inv_head (history w)). rewrite app_nil_r.
          symmetry. exact Hes1. }
        rewrite Hsame. split; [reflexivity | split; [assumption | constructor]].
      - destruct (Handler_connects_known m (obj w) Hm) as (Hd & Hk & Hc).
        rewrite Hobj, Hes. split; [assumption | split; [auto | assumption]]. }
    destruct Hone as (Hd1 & Hk1 & Hc1).
    destruct (IH (step json i w) Hk1) as (Hd2 & Hk2 & Hc2).
    rewrite (added_app _ _ es2 Hes2) in Hc2.
    rewrite (added_app w _ (es1 ++ es2))
      by (rewrite Hes2, Hes1, app_assoc; reflexivity).
    rewrite Hd2, Hd1. split; [reflexivity | split; [assumption |]].
    rewrite connectRequests_app. apply Forall_app. split; [assumption |].
    rewrite Hd1 in Hc2. exact Hc2.
Qed.

Lemma Handler_notifies_with_isOpen (m : M unit) (s : SonarWebSocketImpl) :
  Handler json m ->
  (In CallbackOnConnected (effectsOf (m s)) -> isOpen (stateOf (m s)) = true) /\
  (In CallbackOnDisconnected (effectsOf (m s)) ->
     isOpen s = true /\ isOpen (stateOf (m s)) = false).
Proof.
  intros Hm.
  destruct s as [d open trusted failed client].
  destruct Hm as [ | | message | env c | | | | payload | sub sig];
    try destruct env as [inThread has devId csr dir conn];
    try destruct c; try destruct sub; try destruct sig;
    crunch;
    (split; intro Hin;
     repeat (destruct Hin as [Hin | Hin]; try discriminate Hin);
     try contradiction;
     repeat match goal with
            | H : negb ?b = _ |- _ => destruct b; try discriminate H; clear H
            end;
     repeat split; reflexivity).
Qed.

(** X5. The notifications agree with [isOpen].  A step that tells the
    application it is connected ends with [isOpen] true; a step that tells
    it it is disconnected began with [isOpen] true and ends with [isOpen]
    false. *)
Theorem notifications_agree_with_isOpen (i : Input) (w : World) :
  (In CallbackOnConnected (added w (step json i w)) ->
     isOpen (obj (step json i w)) = true) /\
  (In CallbackOnDisconnected (added w (step json i w)) ->
     isOpen (obj w) = true /\ isOpen (obj (step json i w)) = false).
Proof.
  destruct (step_extends i w) as (es & Hes & Hstep).
  rewrite (added_app _ _ es Hes).
  destruct Hstep as [Hsame | (m & Hm & Hes' & Hobj)].
  - rewrite Hsame in Hes.
    assert (es = []) as ->.
    { apply (app_inv_head (history w)). rewrite app_nil_r.
      symmetry. exact Hes. }
    split; intros [].
  - rewrite Hobj, Hes'. apply Handler_notifies_with_isOpen, Hm.
Qed.

Lemma notifications_app (es1 es2 : list Effect) :
  notifications (es1 ++ es2) = notifications es1 ++ notifications es2.
Proof.
  induction es1 as [| e es1 IH]; [reflexivity |].
  destruct e; simpl; rewrite ?IH; reflexivity.
Qed.

Lemma Handler_silent_while_untrusted (m : M unit) (s : SonarWebSocketImpl) :
  Handler json m ->
  connectionIsTrusted_ s = false ->
  secureConnects (effectsOf (m s)) = O ->
  notifications (effectsOf (m s)) = [].
Proof.
  intros Hm Htrust.
  destruct s as [d open trusted failed client]. cbn in Htrust. subst trusted.
  destruct Hm as [ | | message | env c | | | | payload | sub sig];
    try destruct env as [inThread has devId csr dir conn];
    try destruct c; try destruct sub; try destruct sig;
    crunch; intros; try reflexivity; try discriminate.
Qed.

(** X10. While the trust flag is false and no connect to the secure port
    is made, the application hears nothing of the connection: whatever is
    called, whatever lambdas run, whatever the transport reports, neither
    [onConnected] nor [onDisconnected] is called. *)
Theorem untrusted_run_notifies_nothing (inputs : list Input) (w : World) :
  connectionIsTrusted_ (obj w) = false ->
  secureConnects (history (run json inputs w)) = secureConnects (history w) ->
  notifications (added w (run json inputs w)) = [].
Proof.
  revert w. induction inputs as [| i rest IH]; intros w Htrust Hcount;
    cbn [run] in *.
  - rewrite (added_app w w []) by (rewrite app_nil_r; reflexivity).
    reflexivity.
  - destruct (step_extends i w) as (es1 & Hes1 & Hstep).
    destruct (run_extends rest (step json i w)) as (es2 & Hes2).
    pose proof (step_secureConnects_mono json i w) as Hmono1.
    pose proof (run_secureConnects_mono json rest (step json i w)) as Hmono2.
    assert (Hcount1 : secureConnects (history (step json i w))
                      = secureConnects (history w)) by lia.
    assert (Hcount2 : secureConnects (history (run json rest (step json i w)))
                      = secureConnects (history (step json i w))) by lia.
    pose proof (step_keeps_untrusted json i w Htrust Hcount1) as Htrust1.
    specialize (IH (step json i w) Htrust1 Hcount2).
    rewrite (added_app _ _ es2 Hes2) in IH.
    rewrite (added_app w _ (es1 ++ es2))
      by (rewrite Hes2, Hes1, app_assoc; reflexivity).
    rewrite notifications_app, IH, app_nil_r.
    destruct Hstep as [Hsame | (m & Hm & Hes & Hobj)].
    + rewrite Hsame in Hes1.
      assert (es1 = []) as ->; [| reflexivity].
      apply (app_inv_head (history w)). rewrite app_nil_r.
      symmetry. exact Hes1.
    + rewrite Hes. apply Handler_silent_while_untrusted; try assumption.
      rewrite Hes1, secureConnects_app, Hes in Hcount1. lia.
Qed.

End Invariants.

(** X6 at work over a run with two failed handshakes. *)
Lemma failedConnectionAttempts_nonnegative_witness :
  0 <= failedConnectionAttempts_ (obj retryingWorld) /\
  0 <= failedConnectionAttempts_
         (obj (run SampleJson.codec
                 [Run 0 envHandshakeFailure; Run 0 envHandshakeFailure;
                  Call_stop]
                 retryingWorld)).
Proof.
  assert (H : 0 <= failedConnectionAttempts_ (obj retryingWorld))
    by apply Z.le_refl.
  split; [exact H |].
  apply (failedConnectionAttempts_nonnegative SampleJson.codec
           [Run 0 envHandshakeFailure; Run 0 envHandshakeFailure; Call_stop]
           retryingWorld H).
Defined.

(** X2 at work from construction through a bootstrap and a secure
    connect. *)
Lemma connects_are_bootstrap_or_secure_witness :
  handleKnown (obj (constructed sampleDevice)) /\
  handleKnown
    (obj (run SampleJson.codec
            [Call_start; Run 0 envNoCertificates; Call_start;
             Run 1 envListening]
            (constructed sampleDevice))).
Proof.
  assert (H : handleKnown (obj (constructed sampleDevice)))
    by (intros c Hc; discriminate Hc).
  split; [exact H |].
  apply (connects_are_bootstrap_or_secure SampleJson.codec
           [Call_start; Run 0 envNoCertificates; Call_start;
            Run 1 envListening]
           (constructed sampleDevice) H).
Defined.

(** X5 at work when the transport reports the secure connection. *)
Lemma notifications_agree_with_isOpen_witness :
  let w := run SampleJson.codec [Call_start; Run 0 envListening]
             (constructed sampleDevice) in
  In CallbackOnConnected
    (added w (step SampleJson.codec Transport_onConnected w)) /\
  isOpen (obj (step SampleJson.codec Transport_onConnected w)) = true.
Proof.
  cbn zeta.
  assert (H : In CallbackOnConnected
                (added (run SampleJson.codec [Call_start; Run 0 envListening]
                          (constructed sampleDevice))
                   (step SampleJson.codec Transport_onConnected
                      (run SampleJson.codec [Call_start; Run 0 envListening]
                         (constructed sampleDevice)))))
    by (left; reflexivity).
  split; [exact H |].
  apply (notifications_agree_with_isOpen SampleJson.codec
           Transport_onConnected
           (run SampleJson.codec [Call_start; Run 0 envListening]
              (constructed sampleDevice))).
  exact H.
Defined.

(** X10 at work over the whole certificate exchange and the loss of the
    bootstrap channel. *)
Lemma untrusted_run_notifies_nothing_witness :
  connectionIsTrusted_ (obj bootstrapWorld) = false /\
  notifications
    (added bootstrapWorld
       (run SampleJson.codec
          [Transport_onConnected; Run 0 envNoCertificates;
           Transport_signal 0 (OnSuccess (toJson SampleJson.codec sampleConfig));
           Transport_onClosed]
          bootstrapWorld)) = [].
Proof.
  split; [reflexivity |].
  apply (untrusted_run_notifies_nothing SampleJson.codec
           [Transport_onConnected; Run 0 envNoCertificates;
            Transport_signal 0 (OnSuccess (toJson SampleJson.codec sampleConfig));
            Transport_onClosed]
           bootstrapWorld); reflexivity.
Defined.

(** ** From [start] to a trusted connection *)

Section Handshake.

Variable json : Json.

Ltac inner_step known :=
  match goal with
  | |- context [step ?j ?i ?w] =>
      lazymatch w with
      | context [step _ _ _] => fail
      | _ => idtac
      end;
      let W := fresh "W" in
      let E := fresh "E" in
      remember (step j i w) as W eqn:E;
      unfold step, perform, takePending, takeSubscribed in E;
      do 4 (unfoldM; cbn -[Z.leb Z.add String.eqb] in E; known E);
      subst W
  end.

(** X11. The whole handshake, from an object with nothing open and
    nothing waiting.  [start()]; the start lambda finds no certificate
    files and connects to the insecure port; the transport reports the
    connection; the request lambda sends the signing request; the desktop
    answers with a configuration; the transport reports the bootstrap
    channel closed; the reconnect lambda finds the files and connects to
    the secure port; the transport reports the connection.  At the end
    [isOpen] is true, the counter is 0, the application has been notified
    once, of a connect, the configuration has been stored, the only payload
    sent went out on the bootstrap client and is the signing request, the
    handle is the secure client, and nothing is left waiting. *)
Theorem bootstrap_then_secure_handshake
    (s0 : SonarWebSocketImpl) (envB envS : Env) (response : string)
    (config : dynamic) (c1 c2 : nat) :
  isOpen_ s0 = false ->
  isInEventBaseThread envB = true ->
  hasRequiredFiles envB = false ->
  connectFuture_get envB = inl c1 ->
  isInEventBaseThread envS = true ->
  hasRequiredFiles envS = true ->
  connectFuture_get envS = inl c2 ->
  response <> "" ->
  parseJson json response = Some config ->
  let w := run json
             [Call_start; Run 0 envB; Transport_onConnected; Run 0 envB;
              Transport_signal 0 (OnSuccess response); Transport_onClosed;
              Run 0 envS; Transport_onConnected]
             (idle s0) in
  isOpen (obj w) = true /\
  failedConnectionAttempts_ (obj w) = 0 /\
  notifications (history w) = [CallbackOnConnected] /\
  stored (history w) = [config] /\
  (exists bootstrap,
     sent (history w) =
       [(bootstrap, toJson json (signCertificateMessage envB))] /\
     connection bootstrap = c1 /\ bootstrapSetup (request bootstrap) = true) /\
  (exists secure,
     client_ (obj w) = Some secure /\
     connection secure = c2 /\ secureSetup (request secure) = true) /\
  pending w = [] /\ subscribed w = [] /\ crashed w = false.
Proof.
  intros Hclosed HthreadB HfilesB HconnectB HthreadS HfilesS HconnectS
    Hresponse Hparse.
  destruct envB as [inThreadB hasB devIdB csrB dirB connB];
  destruct envS as [inThreadS hasS devIdS csrS dirS connS];
  destruct s0 as [d open trusted failed client].
  cbn in Hclosed, HthreadB, HfilesB, HconnectB, HthreadS, HfilesS, HconnectS.
  subst open inThreadB hasB connB inThreadS hasS connS.
  apply String.eqb_neq in Hresponse.
  destruct (2 <=? failed) eqn:Hfailed;
    destruct (String.eqb devIdS "unknown") eqn:Hunknown.
  all: unfold idle, signCertificateMessage; cbn [run]; cbv zeta.
  all: do 8 inner_step
         ltac:(fun E => rewrite ?Hfailed, ?Hunknown, ?Hresponse, ?Hparse in E).
  all: cbn.
  all: repeat first [reflexivity | split | eexists].
Qed.

End Handshake.

(** X11 at work with the sample surroundings. *)
Lemma bootstrap_then_secure_handshake_witness :
  isOpen_ sampleObject = false /\
  parseJson SampleJson.codec (toJson SampleJson.codec sampleConfig)
    = Some sampleConfig /\
  let w := run SampleJson.codec
             [Call_start; Run 0 envNoCertificates; Transport_onConnected;
              Run 0 envNoCertificates;
              Transport_signal 0
                (OnSuccess (toJson SampleJson.codec sampleConfig));
              Transport_onClosed; Run 0 envListening; Transport_onConnected]
             (idle sampleObject) in
  isOpen (obj w) = true /\ stored (history w) = [sampleConfig].
Proof.
  split; [reflexivity |]. split; [reflexivity |].
  assert (Hfull : toJson SampleJson.codec sampleConfig <> "")
    by discriminate.
  destruct (bootstrap_then_secure_handshake SampleJson.codec sampleObject
              envNoCertificates envListening
              (toJson SampleJson.codec sampleConfig) sampleConfig 7 1
              eq_refl eq_refl eq_refl eq_refl eq_refl eq_refl eq_refl
              Hfull eq_refl)
    as (Hopen & _ & _ & Hstored & _).
  split; [exact Hopen | exact Hstored].
Defined.

(** ** The trust flag after a failed secure connect *)

(** C2 fails on the code.  [connectSecurely] sets the trust flag before it
    connects and neither catch block of [startSync] takes it back, although
    [doCertificateExchange] clears it before its connect and
    [onDisconnected] clears it on a loss.  With the bootstrap channel
    reported open, [isOpen] answers false; one failed secure pass later the
    handle is still the client of the insecure port, no connect to the
    secure port has ever succeeded, the application has been told nothing,
    and [isOpen] answers true.  A later pass takes the object for
    connected and does not connect. *)
Lemma bootstrap_channel_counts_as_open :
  isOpen (obj forcedBootstrapWorld) = false /\
  isOpen_ (obj forcedBootstrapWorld) = true /\
  connectionIsTrusted_ (obj forcedBootstrapWorld) = false /\
  isOpen (obj staleTrustWorld) = true /\
  client_ (obj staleTrustWorld) = client_ (obj forcedBootstrapWorld) /\
  (exists bootstrap,
     client_ (obj staleTrustWorld) = Some bootstrap /\
     bootstrapSetup (request bootstrap) = true) /\
  ~ In (StepComplete "Connect securely") (history staleTrustWorld) /\
  notifications (history staleTrustWorld) = [] /\
  effectsOf (startSync SampleJson.codec envListening (obj staleTrustWorld)) =
    [Log "Already connected"].
Proof.
  vm_compute. repeat split; try reflexivity.
  - eexists. split; reflexivity.
  - intro H. repeat (destruct H as [H | H]; [discriminate H |]). exact H.
Qed.

(** C8 fails on the code, by the same trust flag left set.  In
    [staleTrustWorld] the only channel there has ever been is the bootstrap
    one and the application has not been told of any connection; when the
    transport reports that channel closed, [onClosed] finds both flags set
    and calls [onDisconnected]. *)
Lemma bootstrap_teardown_notifies_disconnected :
  let after := step SampleJson.codec Transport_onClosed staleTrustWorld in
  (exists bootstrap,
     client_ (obj staleTrustWorld) = Some bootstrap /\
     bootstrapSetup (request bootstrap) = true) /\
  notifications (history staleTrustWorld) = [] /\
  added staleTrustWorld after =
    [CallbackOnDisconnected; FutureDelayed 2000 ReconnectClosure] /\
  notifications (history after) = [CallbackOnDisconnected].
Proof.
  vm_compute. repeat split; try reflexivity.
  eexists. split; reflexivity.
Qed.
